(** * The agent runner scripts: a shallow embedding and its properties

    Embedded sources:
    - [scripts/elevenlabs_agent_runner.py]  (modules [Runner], [Startup])
    - [scripts/minimal_sdk_runner.py]       (modules [SdkRunner], [SdkStartup])

    Conventions of the embedding.
    - A Python [str] is a Rocq [string]; a character outside ASCII is the
      sequence of its UTF-8 bytes.
    - A value obtained from [json.load]/[json.loads] is a [json]; JSON
      numbers are the integers ([JInt]), floating point numbers are not
      represented.
    - A Python [dict] is an association list in insertion order.
    - An exception is the constructor [Raise] of [result]. *)

From Stdlib Require Import List String Ascii ZArith Bool Lia Arith.
From Stdlib Require Import DecimalString DecimalZ DecimalPos DecimalFacts.
Import ListNotations.
Local Open Scope string_scope.

(* ================================================================== *)
(** * Python strings, dictionaries and truthiness                      *)
(* ================================================================== *)

Module Py.

Definition dquote : ascii := "034".
Definition backslash : ascii := "\".
Definition newline : ascii := "010".

Definition str1 (c : ascii) : string := String c EmptyString.

(** [s[n:]] *)
Fixpoint drop (n : nat) (s : string) : string :=
  match n, s with
  | S n', String _ r => drop n' r
  | _, _ => s
  end.

(** [str.isspace] on the ASCII range: 0x09-0x0d, 0x1c-0x20. *)
Definition is_space (c : ascii) : bool :=
  let n := nat_of_ascii c in
  (((9 <=? n) && (n <=? 13)) || ((28 <=? n) && (n <=? 32)))%nat.

Fixpoint lstrip (s : string) : string :=
  match s with
  | String c r => if is_space c then lstrip r else s
  | EmptyString => EmptyString
  end.

Fixpoint rstrip (s : string) : string :=
  match s with
  | String c r =>
      match rstrip r with
      | EmptyString => if is_space c then EmptyString else str1 c
      | r' => String c r'
      end
  | EmptyString => EmptyString
  end.

(** [str.strip()] *)
Definition strip (s : string) : string := rstrip (lstrip s).

(** [sep.join(l)] *)
Fixpoint join (sep : string) (l : list string) : string :=
  match l with
  | [] => ""
  | [x] => x
  | x :: r => x ++ sep ++ join sep r
  end.

(** Left-to-right scan replacing non-overlapping matches: [m s] is the
    length of the match that starts at the head of [s], if there is one.
    [skip] counts the characters of the current match still to be
    consumed.  Both [str.replace] and [re.sub] scan this way. *)
Fixpoint sub_scan (m : string -> option nat) (new : string)
    (skip : nat) (s : string) : string :=
  match s with
  | EmptyString => EmptyString
  | String c r =>
      match skip with
      | S n => sub_scan m new n r
      | O =>
          match m s with
          | Some len => new ++ sub_scan m new (pred len) r
          | None => String c (sub_scan m new 0 r)
          end
      end
  end.

Definition match_literal (old : string) (s : string) : option nat :=
  if prefix old s then Some (length old) else None.

(** [new.join(s)] with [new] also before and after: what
    [s.replace("", new)] returns. *)
Fixpoint interleave (new s : string) : string :=
  match s with
  | EmptyString => new
  | String c r => new ++ String c (interleave new r)
  end.

(** [s.replace(old, new)] *)
Definition replace (old new s : string) : string :=
  match old with
  | EmptyString => interleave new s
  | _ => sub_scan (match_literal old) new 0 s
  end.

(** ** Dictionaries *)

Definition dict (V : Type) : Type := list (string * V).

Fixpoint dict_get {V} (d : dict V) (k : string) : option V :=
  match d with
  | [] => None
  | (k', v) :: r => if (k' =? k)%string then Some v else dict_get r k
  end.

(** [d[k] = v]: an existing key keeps its position. *)
Fixpoint dict_set {V} (d : dict V) (k : string) (v : V) : dict V :=
  match d with
  | [] => [(k, v)]
  | (k', v') :: r =>
      if (k' =? k)%string then (k, v) :: r else (k', v') :: dict_set r k v
  end.

Definition keys {V} (d : dict V) : list string := map fst d.

(** [d.get(k, default)] *)
Definition get_or {V} (d : dict V) (k : string) (default : V) : V :=
  match dict_get d k with
  | Some v => v
  | None => default
  end.

(** [str(n)] for an [int] *)
Definition str_of_Z (z : Z) : string := NilZero.string_of_int (Z.to_int z).

End Py.

(* ================================================================== *)
(** * JSON values, [json.dumps]                                        *)
(* ================================================================== *)

Module Json.
Import Py.

Unset Elimination Schemes.
Inductive json : Type :=
| JNull
| JBool (b : bool)
| JInt (n : Z)
| JStr (s : string)
| JList (l : list json)
| JDict (d : list (string * json)).
Set Elimination Schemes.

(** Python truth value of a decoded JSON value. *)
Definition truthy (v : json) : bool :=
  match v with
  | JNull => false
  | JBool b => b
  | JInt n => negb (n =? 0)%Z
  | JStr s => negb (s =? "")%string
  | JList l => match l with [] => false | _ => true end
  | JDict d => match d with [] => false | _ => true end
  end.

(** [a or b] *)
Definition py_or (a b : json) : json := if truthy a then a else b.

Definition hex_digit (n : nat) : ascii :=
  match n with
  | 0 => "0" | 1 => "1" | 2 => "2" | 3 => "3" | 4 => "4"
  | 5 => "5" | 6 => "6" | 7 => "7" | 8 => "8" | 9 => "9"
  | 10 => "a" | 11 => "b" | 12 => "c" | 13 => "d" | 14 => "e"
  | _ => "f"
  end%char.

(** [ESCAPE_DCT] of [json.encoder], the table used with
    [ensure_ascii=False]: the quote, the backslash and the control
    characters below 0x20 are escaped, every other character is kept. *)
Definition escape_char (c : ascii) : string :=
  let n := nat_of_ascii c in
  if (n =? 34)%nat then String backslash (str1 dquote)
  else if (n =? 92)%nat then "\\"
  else if (n =? 10)%nat then "\n"
  else if (n =? 13)%nat then "\r"
  else if (n =? 9)%nat then "\t"
  else if (n =? 8)%nat then "\b"
  else if (n =? 12)%nat then "\f"
  else if (n <? 32)%nat then
    "\u00" ++ String (hex_digit (n / 16)) (str1 (hex_digit (n mod 16)))
  else str1 c.

Fixpoint escape (s : string) : string :=
  match s with
  | EmptyString => EmptyString
  | String c r => escape_char c ++ escape r
  end.

Definition encode_str (s : string) : string :=
  String dquote (escape s ++ str1 dquote).

(** [json.dumps(v, ensure_ascii=False)]: default separators [", "] and
    [": "], no indentation. *)
Fixpoint dumps (v : json) : string :=
  match v with
  | JNull => "null"
  | JBool true => "true"
  | JBool false => "false"
  | JInt n => str_of_Z n
  | JStr s => encode_str s
  | JList l => "[" ++ join ", " (map dumps l) ++ "]"
  | JDict d =>
      "{" ++ join ", " (map (fun kv => encode_str (fst kv) ++ ": " ++ dumps (snd kv)) d)
          ++ "}"
  end.

(** ** [json.loads]

    The decoder of the standard library, on the values [json] represents:
    a number with a fraction or an exponent, [NaN] and the infinities are
    refused, as is an escaped surrogate. *)

Definition is_ws (c : ascii) : bool :=
  let n := nat_of_ascii c in
  ((n =? 32) || (n =? 9) || (n =? 10) || (n =? 13))%nat.

Fixpoint skip_ws (s : string) : string :=
  match s with
  | String c r => if is_ws c then skip_ws r else s
  | EmptyString => EmptyString
  end.

Definition digit_of (c : ascii) : option (Decimal.uint -> Decimal.uint) :=
  match c with
  | "0" => Some Decimal.D0 | "1" => Some Decimal.D1 | "2" => Some Decimal.D2
  | "3" => Some Decimal.D3 | "4" => Some Decimal.D4 | "5" => Some Decimal.D5
  | "6" => Some Decimal.D6 | "7" => Some Decimal.D7 | "8" => Some Decimal.D8
  | "9" => Some Decimal.D9 | _ => None
  end%char.

Definition is_digit (c : ascii) : bool :=
  match digit_of c with Some _ => true | None => false end.

(** The longest run of decimal digits at the head of [s]. *)
Fixpoint scan_digits (s : string) : Decimal.uint * string :=
  match s with
  | String c r =>
      match digit_of c with
      | Some mk => let (d, rest) := scan_digits r in (mk d, rest)
      | None => (Decimal.Nil, s)
      end
  | EmptyString => (Decimal.Nil, EmptyString)
  end.

(** [0|[1-9]\d*] *)
Definition scan_int (s : string) : option (Decimal.uint * string) :=
  match s with
  | String c r =>
      if (c =? "0")%char then Some (Decimal.D0 Decimal.Nil, r)
      else if is_digit c then Some (scan_digits s)
      else None
  | EmptyString => None
  end.

(** What follows the integer part makes the literal a float: a text the
    decoder either reads as a float or rejects. *)
Definition starts_float (s : string) : bool :=
  match s with
  | String c _ => ((c =? ".") || (c =? "e") || (c =? "E"))%char
  | EmptyString => false
  end.

Definition scan_number (s : string) : option (Z * string) :=
  let (neg, s1) :=
    match s with
    | String c r => if (c =? "-")%char then (true, r) else (false, s)
    | EmptyString => (false, s)
    end in
  match scan_int s1 with
  | Some (d, rest) =>
      if starts_float rest then None
      else Some (Z.of_int (if neg then Decimal.Neg d else Decimal.Pos d), rest)
  | None => None
  end.

Definition hex_val (c : ascii) : option nat :=
  let n := nat_of_ascii c in
  if ((48 <=? n) && (n <=? 57))%nat then Some (n - 48)
  else if ((97 <=? n) && (n <=? 102))%nat then Some (n - 87)
  else if ((65 <=? n) && (n <=? 70))%nat then Some (n - 55)
  else None.

Definition hex4 (a b c d : ascii) : option nat :=
  match hex_val a, hex_val b, hex_val c, hex_val d with
  | Some x, Some y, Some z, Some w => Some (((x * 16 + y) * 16 + z) * 16 + w)
  | _, _, _, _ => None
  end.

(** UTF-8 bytes of a code point of the basic plane; a surrogate has none. *)
Definition utf8 (cp : nat) : option string :=
  if (cp <? 128)%nat then Some (str1 (ascii_of_nat cp))
  else if (cp <? 2048)%nat then
    Some (String (ascii_of_nat (192 + cp / 64))
            (str1 (ascii_of_nat (128 + cp mod 64))))
  else if ((216 * 256 <=? cp) && (cp <? 224 * 256))%nat then None
  else
    Some (String (ascii_of_nat (224 + cp / 4096))
            (String (ascii_of_nat (128 + (cp / 64) mod 64))
               (str1 (ascii_of_nat (128 + cp mod 64))))).

Definition unescape (e : ascii) : option ascii :=
  let n := nat_of_ascii e in
  if (n =? 34)%nat then Some dquote
  else if (n =? 92)%nat then Some backslash
  else if (n =? 47)%nat then Some "/"%char
  else if (n =? 98)%nat then Some (ascii_of_nat 8)
  else if (n =? 102)%nat then Some (ascii_of_nat 12)
  else if (n =? 110)%nat then Some (ascii_of_nat 10)
  else if (n =? 114)%nat then Some (ascii_of_nat 13)
  else if (n =? 116)%nat then Some (ascii_of_nat 9)
  else None.

Definition prepend (p : string) (r : option (string * string)) :
    option (string * string) :=
  match r with
  | Some (t, rest) => Some (p ++ t, rest)
  | None => None
  end.

(** [scanstring] with [strict=True], started after the opening quote:
    the decoded text and what follows the closing quote. *)
Fixpoint scan_string (s : string) : option (string * string) :=
  match s with
  | EmptyString => None
  | String c r =>
      if (nat_of_ascii c =? 34)%nat then Some (EmptyString, r)
      else if (nat_of_ascii c =? 92)%nat then
        match r with
        | String e r1 =>
            if (e =? "u")%char then
              match r1 with
              | String h1 (String h2 (String h3 (String h4 r2))) =>
                  match hex4 h1 h2 h3 h4 with
                  | Some cp =>
                      match utf8 cp with
                      | Some bytes => prepend bytes (scan_string r2)
                      | None => None
                      end
                  | None => None
                  end
              | _ => None
              end
            else
              match unescape e with
              | Some ch => prepend (str1 ch) (scan_string r1)
              | None => None
              end
        | EmptyString => None
        end
      else if (nat_of_ascii c <? 32)%nat then None
      else prepend (str1 c) (scan_string r)
  end.

(** [dict(pairs)]: a repeated key keeps its first position and takes the
    last value. *)
Definition dict_of_pairs (ps : list (string * json)) : list (string * json) :=
  fold_left (fun d kv => dict_set d (fst kv) (snd kv)) ps [].

(** [scan_once], [JSONArray] and [JSONObject].  [fuel] bounds the number
    of nested calls; the length of the text is always enough. *)
Fixpoint parse_value (fuel : nat) (s : string) : option (json * string) :=
  match fuel with
  | O => None
  | S f =>
      match s with
      | EmptyString => None
      | String c r =>
          if (nat_of_ascii c =? 34)%nat then
            match scan_string r with
            | Some (t, rest) => Some (JStr t, rest)
            | None => None
            end
          else if (c =? "{")%char then
            match skip_ws r with
            | String c1 r1 =>
                if (c1 =? "}")%char then Some (JDict [], r1)
                else
                  match parse_members f (String c1 r1) with
                  | Some (ps, rest) => Some (JDict (dict_of_pairs ps), rest)
                  | None => None
                  end
            | EmptyString => None
            end
          else if (c =? "[")%char then
            match skip_ws r with
            | String c1 r1 =>
                if (c1 =? "]")%char then Some (JList [], r1)
                else
                  match parse_elems f (String c1 r1) with
                  | Some (vs, rest) => Some (JList vs, rest)
                  | None => None
                  end
            | EmptyString => None
            end
          else if prefix "null" s then Some (JNull, drop 4 s)
          else if prefix "true" s then Some (JBool true, drop 4 s)
          else if prefix "false" s then Some (JBool false, drop 5 s)
          else
            match scan_number s with
            | Some (n, rest) => Some (JInt n, rest)
            | None => None
            end
      end
  end

with parse_elems (fuel : nat) (s : string) : option (list json * string) :=
  match fuel with
  | O => None
  | S f =>
      match parse_value f s with
      | Some (v, r) =>
          match skip_ws r with
          | String c r1 =>
              if (c =? ",")%char then
                match parse_elems f (skip_ws r1) with
                | Some (vs, rest) => Some (v :: vs, rest)
                | None => None
                end
              else if (c =? "]")%char then Some ([v], r1)
              else None
          | EmptyString => None
          end
      | None => None
      end
  end

with parse_members (fuel : nat) (s : string) :
    option (list (string * json) * string) :=
  match fuel with
  | O => None
  | S f =>
      match s with
      | String q r =>
          if (nat_of_ascii q =? 34)%nat then
            match scan_string r with
            | Some (k, r1) =>
                match skip_ws r1 with
                | String c r2 =>
                    if (c =? ":")%char then
                      match parse_value f (skip_ws r2) with
                      | Some (v, r3) =>
                          match skip_ws r3 with
                          | String c3 r4 =>
                              if (c3 =? ",")%char then
                                match parse_members f (skip_ws r4) with
                                | Some (ps, rest) => Some ((k, v) :: ps, rest)
                                | None => None
                                end
                              else if (c3 =? "}")%char then Some ([(k, v)], r4)
                              else None
                          | EmptyString => None
                          end
                      | None => None
                      end
                    else None
                | EmptyString => None
                end
            | None => None
            end
          else None
      | EmptyString => None
      end
  end.

(** [json.loads(s)]: [None] stands for [JSONDecodeError]. *)
Definition loads (s : string) : option json :=
  match parse_value (S (length s)) (skip_ws s) with
  | Some (v, rest) =>
      match skip_ws rest with
      | EmptyString => Some v
      | String _ _ => None
      end
  | None => None
  end.

(** Every dictionary inside [v] has pairwise distinct keys, as every
    Python [dict] has. *)
Fixpoint distinct (l : list string) : bool :=
  match l with
  | [] => true
  | k :: r => negb (existsb (String.eqb k) r) && distinct r
  end.

Fixpoint wf (v : json) : bool :=
  match v with
  | JList l => forallb wf l
  | JDict d => distinct (map fst d) && forallb (fun kv => wf (snd kv)) d
  | _ => true
  end.

(** The number of calls a decoding of [dumps v] nests. *)
Fixpoint jsize (v : json) : nat :=
  match v with
  | JList l => S (list_sum (map (fun x => S (jsize x)) l))
  | JDict d => S (list_sum (map (fun kv => S (jsize (snd kv))) d))
  | _ => 1
  end.

(** What may follow a number: no digit, and nothing that would make it
    a float. *)
Definition number_end (s : string) : bool :=
  match s with
  | String c _ => negb (is_digit c) && negb (starts_float s)
  | EmptyString => true
  end.

(** The first character of a decimal numeral. *)
Definition numeral_head (s : string) : bool :=
  match s with
  | String c _ => is_digit c || (c =? "-")%char
  | EmptyString => false
  end.

(** The first character of an encoded value: no white space and no
    closing bracket. *)
Definition value_head (s : string) : bool :=
  match s with
  | String c _ => negb (is_ws c) && negb (c =? "]")%char && negb (c =? "}")%char
  | EmptyString => false
  end.

(** No control character, so no line break, occurs in [s]. *)
Fixpoint one_line (s : string) : bool :=
  match s with
  | String c r => (32 <=? nat_of_ascii c)%nat && one_line r
  | EmptyString => true
  end.

(** [dumps v ++ rest] decodes to [v], leaving [rest], with any fuel from
    [jsize v] on. *)
Definition decodes (v : json) : Prop :=
  forall fuel rest,
    jsize v <= fuel -> number_end rest = true ->
    parse_value fuel (dumps v ++ rest) = Some (v, rest).

(** [a == b] on decoded values: [True == 1] and [False == 0] hold, two
    dictionaries are equal when they bind the same keys to equal values,
    in any order. *)
Definition Z_of_bool (b : bool) : Z := if b then 1%Z else 0%Z.

Fixpoint py_eq (a b : json) : bool :=
  match a, b with
  | JNull, JNull => true
  | JBool x, JBool y => Bool.eqb x y
  | JBool x, JInt n => (Z_of_bool x =? n)%Z
  | JInt n, JBool y => (n =? Z_of_bool y)%Z
  | JInt n, JInt m => (n =? m)%Z
  | JStr s, JStr t => (s =? t)%string
  | JList l, JList l' =>
      (fix all2 (l : list json) (l' : list json) : bool :=
         match l, l' with
         | [], [] => true
         | x :: r, y :: r' => py_eq x y && all2 r r'
         | _, _ => false
         end) l l'
  | JDict d, JDict d' =>
      (Nat.eqb (List.length d) (List.length d')) &&
      (fix sub (d : list (string * json)) : bool :=
         match d with
         | [] => true
         | (k, v) :: r =>
             match dict_get d' k with
             | Some v' => py_eq v v' && sub r
             | None => false
             end
         end) d
  | _, _ => false
  end.

(** [v == s] for a string literal [s]. *)
Definition is_str (v : json) (s : string) : bool := py_eq v (JStr s).

(** [type(v).__name__] *)
Definition type_name (v : json) : string :=
  match v with
  | JNull => "NoneType"
  | JBool _ => "bool"
  | JInt _ => "int"
  | JStr _ => "str"
  | JList _ => "list"
  | JDict _ => "dict"
  end.

End Json.

(* ================================================================== *)
(** * Exceptions, the file system, the shared session state            *)
(* ================================================================== *)

Module Runtime.
Import Py Json.

Inductive exn : Type :=
| UnsupportedTool (tool : string)        (* ValueError raised by the runner *)
| AttributeError (v : json) (attr : string)
| JSONDecodeError (doc : string)
| IntError (v : json)                    (* ValueError or TypeError of [int()] *)
| PathError (v : json)                   (* a path that is not a [str] *)
| ConnectionClosed.

Inductive result (A : Type) : Type :=
| Ok (a : A)
| Raise (e : exn).
Arguments Ok {A} a.
Arguments Raise {A} e.

(** [v.get(k, default)]: only a [dict] has the method. *)
Definition attr_get (v : json) (k : string) (default : json) : result json :=
  match v with
  | JDict d => Ok (get_or d k default)
  | _ => Raise (AttributeError v "get")
  end.

(** A file as the runner sees it: its modification time, on the clock of
    the file system, and its bytes. *)
Record file : Type := mkFile { mtime : Z; content : string }.

(** [os.path.exists(p)] is [fs p <> None]. *)
Definition filesystem : Type := string -> option file.

(** The variables of [run_websocket] that its three coroutines share,
    the messages the socket has accepted so far, oldest first, and for
    each coming call of [ws.send] whether it raises ([true]); past the
    end of [faults] no call raises.  [ws.send(json.dumps(p))] is recorded
    as [p]. *)
Record World : Type := mkWorld {
  active_conversation_id : json;
  transcript : list json;
  wire : list json;
  faults : list bool
}.

Definition M (A : Type) : Type := World -> result A * World.

Definition ret {A} (a : A) : M A := fun w => (Ok a, w).

Definition lift {A} (r : result A) : M A := fun w => (r, w).

Definition bind {A B} (m : M A) (k : A -> M B) : M B :=
  fun w =>
    match m w with
    | (Ok a, w') => k a w'
    | (Raise e, w') => (Raise e, w')
    end.

(** [try: m  except Exception as e: h e] *)
Definition try_except {A} (m : M A) (h : exn -> M A) : M A :=
  fun w =>
    match m w with
    | (Ok a, w') => (Ok a, w')
    | (Raise e, w') => h e w'
    end.

Definition ws_send (payload : json) : M unit :=
  fun w =>
    match faults w with
    | true :: rest =>
        (Raise ConnectionClosed,
         mkWorld (active_conversation_id w) (transcript w) (wire w) rest)
    | _ =>
        (Ok tt,
         mkWorld (active_conversation_id w) (transcript w)
           (wire w ++ [payload]) (tl (faults w)))
    end.

Definition set_active (v : json) : M unit :=
  fun w => (Ok tt, mkWorld v (transcript w) (wire w) (faults w)).

Definition append_turn (t : json) : M unit :=
  fun w =>
    (Ok tt,
     mkWorld (active_conversation_id w) (transcript w ++ [t]) (wire w) (faults w)).

Definition get_transcript : M (list json) := fun w => (Ok (transcript w), w).

Definition get_active : M json := fun w => (Ok (active_conversation_id w), w).

End Runtime.

Declare Scope py_scope.
Delimit Scope py_scope with py.
Notation "x <- m ;; k" := (Runtime.bind m (fun x => k))
  (at level 61, m at next level, right associativity) : py_scope.
Notation "m ;;; k" := (Runtime.bind m (fun _ => k))
  (at level 61, right associativity) : py_scope.

(* ================================================================== *)
(** * [scripts/elevenlabs_agent_runner.py]                             *)
(* ================================================================== *)

Module Runner.
Import Py Json Runtime.
Local Open Scope py_scope.

(** ** [to_string_map] *)

Section Stringify.

(** [str(v)] of a [list] or a [dict] is Python's [repr], which the
    runner never looks into. *)
Variable py_repr : json -> string.

(** [str(v)] *)
Definition py_str (v : json) : string :=
  match v with
  | JNull => "None"
  | JBool true => "True"
  | JBool false => "False"
  | JInt n => str_of_Z n
  | JStr s => s
  | JList _ | JDict _ => py_repr v
  end.

End Stringify.

(** The three branches of the loop body of [to_string_map]: the last
    one, [str(v)], is only reached by [bool], [int] and [str]. *)
Definition stringify (v : json) : string :=
  match v with
  | JList _ | JDict _ => dumps v
  | JNull => ""
  | JBool true => "True"
  | JBool false => "False"
  | JInt n => str_of_Z n
  | JStr s => s
  end.

Definition to_string_map (d : dict json) : dict string :=
  fold_left (fun out kv => dict_set out (fst kv) (stringify (snd kv))) d [].

(** ** [render_prompt] *)

(** Number of leading characters of [s] that are not braces. *)
Fixpoint span_nobrace (s : string) : nat :=
  match s with
  | String c r =>
      if ((c =? "{") || (c =? "}"))%char then 0 else S (span_nobrace r)
  | EmptyString => 0
  end.

(** The match of [{{[^{}]+}}] at the head of [s].  The class excludes
    both braces, so the run it matches is the longest brace-free run
    and backtracking to a shorter one never finds the closing [}}]. *)
Definition match_placeholder (s : string) : option nat :=
  match s with
  | String c1 (String c2 r) =>
      if ((c1 =? "{") && (c2 =? "{"))%char then
        match span_nobrace r with
        | O => None
        | S n => if prefix "}}" (drop (S n) r) then Some (S n + 4) else None
        end
      else None
  | _ => None
  end.

(** [re.sub(r"{{[^{}]+}}", "", s)] *)
Definition strip_placeholders (s : string) : string :=
  sub_scan match_placeholder "" 0 s.

Definition placeholder (k : string) : string := "{{" ++ k ++ "}}".

Definition render_prompt (template_text : string) (variables : dict string) :
    string :=
  let out :=
    fold_left (fun out kv => replace (placeholder (fst kv)) (snd kv) out)
      variables template_text in
  strip_placeholders out.

(** ** [load_memory_buffer] *)

Definition path_of (p : json) : result string :=
  match p with
  | JStr s => Ok s
  | _ => Raise (PathError p)
  end.

Definition load_memory_buffer (cfg : dict json) (fs : filesystem) : result json :=
  match attr_get (get_or cfg "memory_buffer_source" (JDict [])) "path" JNull with
  | Raise e => Raise e
  | Ok p =>
      if negb (truthy p) then Ok (JDict [])
      else
        match path_of p with
        | Raise e => Raise e
        | Ok path =>
            match fs path with
            | None => Ok (JDict [])
            | Some f =>
                match loads (content f) with
                | Some v => Ok v
                | None => Raise (JSONDecodeError (content f))
                end
            end
        end
  end.

(** [to_string_map(v)] on what [json.load] returned: [d.items()] needs a
    [dict]. *)
Definition to_string_map_of (v : json) : result (dict string) :=
  match v with
  | JDict d => Ok (to_string_map d)
  | _ => Raise (AttributeError v "items")
  end.

Definition json_of_vars (vars : dict string) : json :=
  JDict (map (fun kv => (fst kv, JStr (snd kv))) vars).

(** ** The tools of the receive loop *)

(** [int(s)] for a [str]: optional sign, decimal digits, single
    underscores between digits. *)
Fixpoint int_digits (after_digit : bool) (s : string) : option Decimal.uint :=
  match s with
  | EmptyString => if after_digit then Some Decimal.Nil else None
  | String c r =>
      match digit_of c with
      | Some mk =>
          match int_digits true r with
          | Some d => Some (mk d)
          | None => None
          end
      | None =>
          if ((c =? "_")%char && after_digit)%bool then int_digits false r
          else None
      end
  end.

Definition int_of_str (s : string) : option Z :=
  match strip s with
  | String c r =>
      if (c =? "-")%char then
        option_map (fun d => Z.opp (Z.of_uint d)) (int_digits false r)
      else if (c =? "+")%char then option_map Z.of_uint (int_digits false r)
      else option_map Z.of_uint (int_digits false (String c r))
  | EmptyString => None
  end.

(** [int(v)] *)
Definition py_int (v : json) : result Z :=
  match v with
  | JInt n => Ok n
  | JBool b => Ok (Z_of_bool b)
  | JStr s =>
      match int_of_str s with
      | Some n => Ok n
      | None => Raise (IntError v)
      end
  | _ => Raise (IntError v)
  end.

(** [l[start:]] *)
Definition slice_from {A} (start : Z) (l : list A) : list A :=
  let len := Z.of_nat (List.length l) in
  let i := if (start <? 0)%Z then Z.max (len + start) 0 else Z.min start len in
  skipn (Z.to_nat i) l.

(** The body of the [try] of a [client_tool_call] up to the result. *)
Definition run_tool (cfg : dict json) (fs : filesystem) (history : list json)
    (tool : string) : result json :=
  if (tool =? "getMemoryBuffer")%string then
    match load_memory_buffer cfg fs with
    | Raise e => Raise e
    | Ok mem =>
        match to_string_map_of mem with
        | Raise e => Raise e
        | Ok vars => Ok (json_of_vars vars)
        end
    end
  else if (tool =? "getConversationHistory")%string then
    match py_int (py_or (get_or cfg "recent_max" (JInt 10)) (JInt 10)) with
    | Raise e => Raise e
    | Ok n => Ok (JDict [("messages", JList (slice_from (- n) history))])
    end
  else Raise (UnsupportedTool tool).

(** [(v or "").strip()] *)
Definition stripped_name (v : json) : result string :=
  match py_or v (JStr "") with
  | JStr s => Ok (strip s)
  | other => Raise (AttributeError other "strip")
  end.

Definition pong (event_id : json) : json :=
  JDict [("type", JStr "pong"); ("event_id", event_id)].

Definition client_tool_result (call_id result : json) (is_error : bool) : json :=
  JDict [("type", JStr "client_tool_result"); ("tool_call_id", call_id);
         ("result", result); ("is_error", JBool is_error)].

Definition turn (role : string) (text : json) : json :=
  JDict [("role", JStr role); ("text", text)].

Definition is_none (v : json) : bool :=
  match v with JNull => true | _ => false end.

Section ReceiveLoop.

(** [str(e)] for an exception raised by the interpreter or a library. *)
Variable runtime_text : exn -> string.

Variable cfg : dict json.

(** The files, as they are while the message is handled. *)
Variable fs : filesystem.

Definition str_exn (e : exn) : string :=
  match e with
  | UnsupportedTool tool => "Unsupported tool: " ++ tool
  | _ => runtime_text e
  end.


(** One iteration of [async for raw in ws], after [json.loads].
    Printing, logging and the optional transcript file, which only
    receive output, are left out. *)
Definition handle_message (msg : json) : M unit :=
  mtype <- lift (attr_get msg "type" JNull) ;;
  if is_str mtype "ping" then
    ping <- lift (attr_get msg "ping_event" (JDict [])) ;;
    event_id <- lift (attr_get ping "event_id" JNull) ;;
    if negb (is_none event_id) then ws_send (pong event_id) else ret tt
  else if is_str mtype "conversation_initiation_metadata" then
    meta <- lift (attr_get msg "conversation_initiation_metadata_event" (JDict [])) ;;
    conv_id <- lift (attr_get meta "conversation_id" JNull) ;;
    if truthy conv_id then set_active conv_id else ret tt
  else if is_str mtype "user_transcript" then
    ut <- lift (attr_get msg "user_transcription_event" (JDict [])) ;;
    text <- lift (attr_get ut "user_transcript" JNull) ;;
    if truthy text then append_turn (turn "user" text) else ret tt
  else if is_str mtype "agent_response" then
    ar <- lift (attr_get msg "agent_response_event" (JDict [])) ;;
    text <- lift (attr_get ar "agent_response" JNull) ;;
    if truthy text then append_turn (turn "assistant" text) else ret tt
  else if is_str mtype "audio" then ret tt
  else if is_str mtype "interruption" then ret tt
  else if is_str mtype "client_tool_call" then
    call <- lift (attr_get msg "client_tool_call" (JDict [])) ;;
    name <- lift (attr_get call "tool_name" JNull) ;;
    tool <- lift (stripped_name name) ;;
    call_id <- lift (attr_get call "tool_call_id" JNull) ;;
    try_except
      (history <- get_transcript ;;
       result <- lift (run_tool cfg fs history tool) ;;
       ws_send (client_tool_result call_id result false))
      (fun e => ws_send (client_tool_result call_id (JStr (str_exn e)) true))
  else ret tt.

(** The body of the loop: a frame that does not decode is skipped. *)
Definition receive (raw : string) : M unit :=
  match loads raw with
  | Some msg => handle_message msg
  | None => ret tt
  end.

(** The loop over the frames the socket delivers; an exception leaves
    it. *)
Fixpoint receive_loop (frames : list string) : M unit :=
  match frames with
  | [] => ret tt
  | raw :: rest => receive raw ;;; receive_loop rest
  end.

End ReceiveLoop.

(** ** [watch_memory_and_send_contextual_updates] *)

(** The local variables of the coroutine that live across ticks. *)
Record MemoryWatch : Type := mkMemoryWatch {
  last_mtime : Z;
  last_vars : dict string
}.

(** [[k for k in curr_vars.keys()
       if curr_vars.get(k, "") != last_vars.get(k, "")]] *)
Definition changed_keys (curr_vars last_vars : dict string) : list string :=
  filter (fun k => negb (get_or curr_vars k "" =? get_or last_vars k "")%string)
    (keys curr_vars).

Definition summarize (changed : list string) : string :=
  let summary := "Context update: " ++ join ", " (firstn 8 changed) in
  if (8 <? List.length changed)%nat then
    summary ++ " (+" ++ str_of_Z (Z.of_nat (List.length changed) - 8) ++ " more)"
  else summary.

(** The payload both watchers build; [active] is truthy wherever the
    runner builds it, the test is the runner's. *)
Definition contextual_update (text : string) (active : json) : json :=
  JDict ([("type", JStr "contextual_update"); ("text", JStr text)]
         ++ (if truthy active then [("conversation_id", active)] else [])).

(** The statements before the loop: [None] when the coroutine returns at
    once, else the path it watches and its first state. *)
Definition watch_memory_start (cfg : dict json) (fs : filesystem) :
    result (option (string * MemoryWatch)) :=
  match attr_get (py_or (get_or cfg "memory_buffer_source" (JDict [])) (JDict []))
          "path" JNull with
  | Raise e => Raise e
  | Ok p =>
      if negb (truthy p) then Ok None
      else
        match py_int (get_or cfg "watch_interval_ms" (JInt 1500)) with
        | Raise e => Raise e
        | Ok _ =>
            if negb (truthy (get_or cfg "send_contextual_updates" (JBool true)))
            then Ok None
            else
              match path_of p with
              | Raise e => Raise e
              | Ok path =>
                  let t := match fs path with Some f => mtime f | None => 0%Z end in
                  match load_memory_buffer cfg fs with
                  | Raise e => Raise e
                  | Ok mem =>
                      match to_string_map_of mem with
                      | Raise e => Raise e
                      | Ok vars => Ok (Some (path, mkMemoryWatch t vars))
                      end
                  end
              end
        end
  end.

(** One turn of the [while True] loop after the sleep.  An exception
    raised inside the [try] ends the turn with the assignments made so
    far. *)
Definition watch_memory_tick (cfg : dict json) (path : string) (fs : filesystem)
    (st : MemoryWatch) (w : World) : MemoryWatch * World :=
  match fs path with
  | None => (st, w)
  | Some f =>
      if (mtime f <=? last_mtime st)%Z then (st, w)
      else
        let st1 := mkMemoryWatch (mtime f) (last_vars st) in
        match load_memory_buffer cfg fs with
        | Raise _ => (st1, w)
        | Ok current_mem =>
            match to_string_map_of current_mem with
            | Raise _ => (st1, w)
            | Ok curr_vars =>
                let changed := changed_keys curr_vars (last_vars st) in
                let st2 := mkMemoryWatch (mtime f) curr_vars in
                match changed with
                | [] => (st2, w)
                | _ :: _ =>
                    if negb (truthy (active_conversation_id w)) then (st2, w)
                    else
                      match
                        ws_send
                          (contextual_update (summarize changed)
                             (active_conversation_id w)) w
                      with
                      | (Ok _, w') => (st2, w')
                      | (Raise _, w') => (st1, w')
                      end
                end
            end
        end
  end.

(** ** [watch_updates_queue] *)

Definition is_newline (c : ascii) : bool :=
  ((nat_of_ascii c =? 10) || (nat_of_ascii c =? 13))%nat.

(** The lines of a text file without their line ends.  A line ends at
    a line feed or a carriage return; the empty line this puts between
    a carriage return and a line feed is one the runner skips. *)
Fixpoint split_lines (s : string) : list string :=
  match s with
  | EmptyString => []
  | String c r =>
      if is_newline c then EmptyString :: split_lines r
      else
        match split_lines r with
        | [] => [str1 c]
        | l :: ls => String c l :: ls
        end
  end.

Section UpdatesQueue.

Variable py_repr : json -> string.

(** The body of [for line in f]. *)
Definition forward_line (line : string) : M unit :=
  let line := strip line in
  if (line =? "")%string then ret tt
  else
    match loads line with
    | None => ret tt
    | Some rec =>
        target <- lift (attr_get rec "conversation_id" JNull) ;;
        first <- lift (attr_get rec "text" JNull) ;;
        second <- lift (attr_get rec "message" JNull) ;;
        let text := py_or first second in
        if negb (truthy text) then ret tt
        else
          active <- get_active ;;
          if (truthy target && truthy active && negb (py_eq target active))%bool
          then ret tt
          else if negb (truthy active) then ret tt
          else ws_send (contextual_update (py_str py_repr text) active)
    end.

Fixpoint forward_lines (lines : list string) : M unit :=
  match lines with
  | [] => ret tt
  | line :: rest => forward_line line ;;; forward_lines rest
  end.

(** One turn of the [while True] loop after the sleep; [offset] is the
    local variable of that name. *)
Definition watch_queue_tick (path : string) (fs : filesystem) (offset : nat)
    (w : World) : nat * World :=
  match fs path with
  | None => (offset, w)
  | Some f =>
      let size := length (content f) in
      if (size <=? offset)%nat then (offset, w)
      else
        match forward_lines (split_lines (drop offset (content f))) w with
        | (Ok _, w') => (size, w')
        | (Raise _, w') => (offset, w')
        end
  end.

End UpdatesQueue.

(** The path the queue is read from and written to. *)
Definition updates_queue_path (cfg : dict json) : result string :=
  path_of (py_or (get_or cfg "updates_queue_path" JNull) (JStr "buffer/updates.ndjson")).

(** The statements of [watch_updates_queue] before its loop: [None] when
    the coroutine returns at once, else the path it watches; the offset
    starts at 0. *)
Definition watch_queue_start (cfg : dict json) : result (option string) :=
  if negb (truthy (get_or cfg "enable_updates_queue" (JBool true))) then Ok None
  else
    match updates_queue_path cfg with
    | Raise e => Raise e
    | Ok path =>
        match py_int (get_or cfg "watch_interval_ms" (JInt 1500)) with
        | Raise e => Raise e
        | Ok _ => Ok (Some path)
        end
    end.

(** [main] with [--enqueue-update]: the line it appends to the queue. *)
Definition enqueue_line (text : string) (conversation_id : option string) : string :=
  let target :=
    match conversation_id with
    | Some c => if (c =? "")%string then [] else [("conversation_id", JStr c)]
    | None => []
    end in
  dumps (JDict (("text", JStr text) :: target)) ++ str1 newline.

End Runner.

(* ================================================================== *)
(** * [scripts/minimal_sdk_runner.py]                                  *)
(* ================================================================== *)

Module SdkRunner.
Import Py Json Runtime.

Definition to_string_map (data : dict json) : dict string :=
  fold_left
    (fun result kv =>
       dict_set result (fst kv)
         match snd kv with
         | JList _ | JDict _ => dumps (snd kv)
         | JNull => ""
         | JBool true => "True"
         | JBool false => "False"
         | JInt n => str_of_Z n
         | JStr s => s
         end)
    data [].

Definition render_prompt (fs : filesystem) (template_path : string)
    (variables : dict string) : string :=
  if (template_path =? "")%string then ""
  else
    match fs template_path with
    | None => ""
    | Some f =>
        let prompt :=
          fold_left
            (fun prompt kv => replace ("{{" ++ fst kv ++ "}}") (snd kv) prompt)
            variables (content f) in
        sub_scan Runner.match_placeholder "" 0 prompt
    end.

End SdkRunner.

(* ================================================================== *)
(** * Starting a session: configuration, initiation payload, URL       *)
(* ================================================================== *)

Module Startup.
Import Py Json Runtime Runner.

Definition WSS_BASE : string := "wss://api.elevenlabs.io/v1/convai/conversation".

(** How a start-up function can fail: [SystemExit(msg)], [open] of a
    file that does not exist, or an exception nothing catches. *)
Inductive failure : Type :=
| SystemExit (msg : string)
| FileNotFound (path : string)
| Uncaught (e : exn).

Inductive outcome (A : Type) : Type :=
| Value (a : A)
| Fail (f : failure).
Arguments Value {A} a.
Arguments Fail {A} f.

(** [os.environ] *)
Definition environ : Type := string -> option string.

(** [os.getenv(name)] *)
Definition getenv (env : environ) (name : string) : json :=
  match env name with
  | Some v => JStr v
  | None => JNull
  end.

(** [str.lower] on the ASCII letters; no other character lowers to a
    letter of ["public"], the one text the result is compared with. *)
Definition lower_char (c : ascii) : ascii :=
  let n := nat_of_ascii c in
  if ((65 <=? n) && (n <=? 90))%nat then ascii_of_nat (n + 32) else c.

Fixpoint lower (s : string) : string :=
  match s with
  | EmptyString => EmptyString
  | String c r => String (lower_char c) (lower r)
  end.

(** [v.lower()] *)
Definition lowered (v : json) : result string :=
  match v with
  | JStr s => Ok (lower s)
  | _ => Raise (AttributeError v "lower")
  end.

(** ** [build_init_client_data] *)

Definition build_init_client_data (cfg : dict json) (system_prompt : string)
    (dyn_vars : dict string) : json :=
  let get k := get_or cfg k JNull in
  let agent_override :=
    ([("prompt", JDict [("prompt", JStr system_prompt)])]
     ++ (if truthy (get "override_language") && truthy (get "language")
         then [("language", get "language")] else [])
     ++ (if truthy (get "override_first_message") && truthy (get "first_message")
         then [("first_message", get "first_message")] else []))%list in
  let convo_override :=
    ([("agent", JDict agent_override)]
     ++ (if truthy (get "override_tts") && truthy (get "voice_id")
         then [("tts", JDict [("voice_id", get "voice_id")])] else []))%list in
  JDict
    [("type", JStr "conversation_initiation_client_data");
     ("conversation_config_override", JDict convo_override);
     ("custom_llm_extra_body", get_or cfg "custom_llm_extra_body" (JDict []));
     ("dynamic_variables", json_of_vars dyn_vars);
     ("user_id", py_or (get "user_id") JNull)].

(** ** [resolve_wss_url] *)

Section Network.

Variable runtime_text : exn -> string.

(** [requests.get(...)], [raise_for_status()] and [resp.json()] for an
    agent id and an API key: the decoded body, or the exception one of
    them raised. *)
Variable get_signed_url : string -> json -> result json.

Definition fetch_failed (why : string) : failure :=
  SystemExit ("Failed to fetch signed URL: " ++ why).

Definition resolve_wss_url (cfg : dict json) (api_key : json) : outcome json :=
  match stripped_name (get_or cfg "signed_url" JNull) with
  | Raise e => Fail (Uncaught e)
  | Ok signed_url =>
      if negb (signed_url =? "")%string then Value (JStr signed_url)
      else
        match stripped_name (get_or cfg "agent_id" JNull) with
        | Raise e => Fail (Uncaught e)
        | Ok agent_id =>
            match lowered (py_or (get_or cfg "auth_mode" JNull) (JStr "auto")) with
            | Raise e => Fail (Uncaught e)
            | Ok auth_mode =>
                if (auth_mode =? "public")%string then
                  if (agent_id =? "")%string
                  then Fail (SystemExit "Missing agent_id in config.json")
                  else Value (JStr (WSS_BASE ++ "?agent_id=" ++ agent_id))
                else if (agent_id =? "")%string
                then Fail (SystemExit "Missing agent_id in config.json")
                else if negb (truthy api_key)
                then
                  Fail
                    (SystemExit
                       "API key required to fetch signed URL. Set ELEVENLABS_API_KEY or elevenlabs_api_key in config.")
                else
                  match get_signed_url agent_id api_key with
                  | Raise e => Fail (fetch_failed (runtime_text e))
                  | Ok data =>
                      match attr_get (py_or data (JDict [])) "signed_url" JNull with
                      | Raise e => Fail (fetch_failed (runtime_text e))
                      | Ok signed =>
                          if truthy signed then Value signed
                          else
                            Fail
                              (fetch_failed
                                 "signed_url missing in ElevenLabs response")
                      end
                  end
            end
        end
  end.


End Network.

(** ** [main], up to the initiation payload *)

(** [read_text(path)].  The file system here has no file descriptors:
    a path that is no [str] is an error. *)
Definition read_text (fs : filesystem) (path : json) : outcome string :=
  match path with
  | JStr p =>
      match fs p with
      | Some f => Value (content f)
      | None => Fail (FileNotFound p)
      end
  | _ => Fail (Uncaught (PathError path))
  end.

Definition init_message (cfg : dict json) (fs : filesystem) : outcome json :=
  match load_memory_buffer cfg fs with
  | Raise e => Fail (Uncaught e)
  | Ok mem =>
      match to_string_map_of mem with
      | Raise e => Fail (Uncaught e)
      | Ok dyn_vars =>
          let prompt_text :=
            if truthy (get_or cfg "prompt_override" (JBool true))
            then read_text fs (get_or cfg "responder_template_path" (JStr "responder.md"))
            else Value EmptyString in
          match prompt_text with
          | Fail f => Fail f
          | Value prompt_text =>
              let system_prompt :=
                if (prompt_text =? "")%string then EmptyString
                else render_prompt prompt_text dyn_vars in
              Value (build_init_client_data cfg system_prompt dyn_vars)
          end
      end
  end.

End Startup.

(* ================================================================== *)
(** * [scripts/minimal_sdk_runner.py]: configuration and initiation    *)
(* ================================================================== *)

Module SdkStartup.
Import Py Json Runtime Runner Startup.

Definition ENVIRONMENT_OVERRIDES : list (string * string) :=
  [("elevenlabs_api_key", "ELEVENLABS_API_KEY");
   ("agent_id", "ELEVENLABS_AGENT_ID");
   ("signed_url", "ELEVENLABS_SIGNED_URL");
   ("voice_id", "ELEVENLABS_VOICE_ID");
   ("language", "ELEVENLABS_AGENT_LANGUAGE");
   ("user_id", "ELEVENLABS_USER_ID")].

Definition apply_env_overrides (cfg : dict json) (env : environ) : dict json :=
  let resolved :=
    fold_left
      (fun resolved kv =>
         match env (snd kv) with
         | Some v => dict_set resolved (fst kv) (JStr v)
         | None => resolved
         end)
      ENVIRONMENT_OVERRIDES cfg in
  match env "ELEVENLABS_AUTH_MODE" with
  | Some v => dict_set resolved "auth_mode" (JStr v)
  | None => resolved
  end.

(** [load_json(path)], with the same reading of a path that is no
    [str] as in [read_text]. *)
Definition load_json (fs : filesystem) (path : json) : outcome json :=
  match path with
  | JStr p =>
      match fs p with
      | Some f =>
          match loads (content f) with
          | Some v => Value v
          | None => Fail (Uncaught (JSONDecodeError (content f)))
          end
      | None => Fail (FileNotFound p)
      end
  | _ => Fail (Uncaught (PathError path))
  end.

(** [d.pop(k)] for a key that is present *)
Fixpoint dict_pop {V} (d : dict V) (k : string) : dict V :=
  match d with
  | [] => []
  | (k', v) :: r => if (k' =? k)%string then r else (k', v) :: dict_pop r k
  end.

(** The [conversation_config_override] of [main] after its clean-up of
    [None] values. *)
Definition config_override (system_prompt : string) : json :=
  let prompt :=
    if (system_prompt =? "")%string then JNull
    else JDict [("prompt", JStr system_prompt)] in
  let agent := [("prompt", prompt)] in
  let agent := if is_none prompt then dict_pop agent "prompt" else agent in
  if negb (truthy (JDict agent)) then JNull else JDict [("agent", JDict agent)].

(** What [main] has computed for the [Conversation] when it has tested
    [agent_id]. *)
Record session_setup : Type := mkSetup {
  dynamic_variables : dict string;
  conversation_config_override : json;
  agent_id : json
}.

(** [render_prompt(template_path, variables)] for a path out of the
    configuration. *)
Definition render_template (fs : filesystem) (template_path : json)
    (variables : dict string) : outcome string :=
  if negb (truthy template_path) then Value EmptyString
  else
    match template_path with
    | JStr p => Value (SdkRunner.render_prompt fs p variables)
    | _ => Fail (Uncaught (PathError template_path))
    end.

(** [to_string_map(mem)] on what [load_json] returned. *)
Definition sdk_string_map_of (v : json) : result (dict string) :=
  match v with
  | JDict d => Ok (SdkRunner.to_string_map d)
  | _ => Raise (AttributeError v "items")
  end.

(** [main], through the test of [agent_id]; the choice of the audio
    interface and the session itself follow.  The [elevenlabs] package
    is taken to be installed: its import and the constructors of its
    client and of the initiation data do not raise. *)
Definition setup (config : dict json) (fs : filesystem) (env : environ) :
    outcome session_setup :=
  let cfg := apply_env_overrides config env in
  match
    attr_get (get_or cfg "memory_buffer_source" (JDict [])) "path"
      (JStr "buffer/memory_buffer.json")
  with
  | Raise e => Fail (Uncaught e)
  | Ok mem_path =>
      match load_json fs mem_path with
      | Fail f => Fail f
      | Value mem =>
          match sdk_string_map_of mem with
          | Raise e => Fail (Uncaught e)
          | Ok dyn_vars =>
              let rendered :=
                if truthy (get_or cfg "prompt_override" (JBool true))
                then
                  render_template fs
                    (get_or cfg "responder_template_path" (JStr "responder.md"))
                    dyn_vars
                else Value EmptyString in
              match rendered with
              | Fail f => Fail f
              | Value system_prompt =>
                  let api_key :=
                    py_or (getenv env "ELEVENLABS_API_KEY")
                      (get_or cfg "elevenlabs_api_key" JNull) in
                  if negb (truthy api_key)
                  then Fail (SystemExit "ELEVENLABS_API_KEY is missing (env or config)")
                  else
                    let agent := get_or cfg "agent_id" JNull in
                    if negb (truthy agent)
                    then Fail (SystemExit "Provide agent_id in config.json")
                    else
                      Value (mkSetup dyn_vars (config_override system_prompt) agent)
              end
          end
      end
  end.

End SdkStartup.

(* ================================================================== *)
(** * Templates, as the rendering claims speak of them                 *)
(* ================================================================== *)

Module Template.
Import Py Json Runner.












End Template.

(* ================================================================== *)
(** * The rolling transcript, as the claims speak of it                *)
(* ================================================================== *)

Module Transcript.
Import Py Json Runtime.




End Transcript.

(* ================================================================== *)
(** * Pending update records, as the claims speak of them              *)
(* ================================================================== *)

Module Record.
Import Py Json.

(** A record is applicable when a conversation is active and the
    record's target is unset or is the active conversation.  The runner
    takes for unset what Python holds false: a target that is missing,
    [null] or empty; [main] writes no target in these cases. *)
Definition applicable (active target : json) : bool :=
  truthy active && (negb (truthy target) || py_eq target active).

End Record.

(* ================================================================== *)
(** * Notions used to state further properties                         *)
(* ================================================================== *)

Module Notions.
Import Py Json Runtime Runner Startup SdkStartup Record.

(** [w'] differs from [w] at most by contextual updates appended to the
    wire, each for the conversation active in [w], and by the faults the
    sends have consumed. *)
Definition only_updates (w w' : World) : Prop :=
  active_conversation_id w' = active_conversation_id w /\
  transcript w' = transcript w /\
  exists texts,
    wire w' =
    (wire w ++ map (fun t => contextual_update t (active_conversation_id w)) texts)%list.

(** Every computation step relates the world before to the world
    after. *)
Definition steps (R : World -> World -> Prop) {A} (m : M A) : Prop :=
  forall w, R w (snd (m w)).

(** The value under a path of keys. *)
Fixpoint path_get (v : json) (path : list string) : option json :=
  match path with
  | [] => Some v
  | k :: rest =>
      match v with
      | JDict d =>
          match dict_get d k with
          | Some x => path_get x rest
          | None => None
          end
      | _ => None
      end
  end.

(** The environment variable that overrides a configuration key in the
    SDK runner. *)
Definition env_var_of (key : string) : option string :=
  dict_get (ENVIRONMENT_OVERRIDES ++ [("auth_mode", "ELEVENLABS_AUTH_MODE")])%list key.

(** The record [main] writes for [--enqueue-update]. *)
Definition enqueued_target (conversation_id : option string) : json :=
  match conversation_id with
  | Some c => if (c =? "")%string then JNull else JStr c
  | None => JNull
  end.

Definition is_some {A} (o : option A) : bool :=
  match o with Some _ => true | None => false end.

(** [n] turns of the loop of the queue watcher over files that do not
    change in between. *)
Fixpoint queue_ticks (py_repr : json -> string) (path : string)
    (fs : filesystem) (n offset : nat) (w : World) : nat * World :=
  match n with
  | O => (offset, w)
  | S n' =>
      let (offset', w') := watch_queue_tick py_repr path fs offset w in
      queue_ticks py_repr path fs n' offset' w'
  end.

(** The text [main --enqueue-update] appends to the queue over several
    runs, one for each pair of a text and an optional conversation id. *)
Definition enqueued (recs : list (string * option string)) : string :=
  fold_right (fun r rest => enqueue_line (fst r) (snd r) ++ rest) "" recs.


(** The message types the receive loop acts on. *)
Definition handled_types : list string :=
  ["ping"; "conversation_initiation_metadata"; "user_transcript";
   "agent_response"; "client_tool_call"].

(** A frame that holds an object whose [type] is none of the handled
    ones, or is missing. *)
Definition passed_over (raw : string) : bool :=
  match loads raw with
  | Some (JDict m) => negb (existsb (is_str (get_or m "type" JNull)) handled_types)
  | _ => false
  end.

(** [w'] comes from [w] by at most [n] additions, each a message at the
    end of the wire or a turn at the end of the transcript, and a
    conversation id that Python holds true was not replaced by one it
    holds false. *)
Definition effects (n : nat) (w w' : World) : Prop :=
  exists sent turns,
    wire w' = (wire w ++ sent)%list /\
    transcript w' = (transcript w ++ turns)%list /\
    List.length sent + List.length turns <= n /\
    (truthy (active_conversation_id w) = true ->
     truthy (active_conversation_id w') = true).

Definition is_dict (v : json) : bool :=
  match v with JDict _ => true | _ => false end.

(** The key under which a message of a handled type carries its event. *)
Definition event_key (mtype : string) : option string :=
  dict_get
    [("ping", "ping_event");
     ("conversation_initiation_metadata", "conversation_initiation_metadata_event");
     ("user_transcript", "user_transcription_event");
     ("agent_response", "agent_response_event");
     ("client_tool_call", "client_tool_call")]
    mtype.

(** The contextual updates for those of [recs] that have a text and are
    applicable while [active] is the conversation id. *)
Definition forwarded (active : json) (recs : list (string * option string)) :
    list json :=
  map (fun r => contextual_update (fst r) active)
    (filter
       (fun r =>
          negb (fst r =? "")%string &&
          applicable active (enqueued_target (snd r)))
       recs).

End Notions.

(* ================================================================== *)
(** * Sample inputs                                                    *)
(* ================================================================== *)

Module Sample.
Import Py Json Runtime Runner.

Definition memory_path : string := "buffer/memory_buffer.json".

Definition cfg : dict json :=
  [("memory_buffer_source", JDict [("path", JStr memory_path)])].

(** A snapshot of twelve keys. *)
Definition snapshot : json :=
  JDict
    (map (fun k => (k, JInt 1))
       ["a"; "b"; "c"; "d"; "e"; "f"; "g"; "h"; "i"; "j"; "k"; "l"]).

Definition fs : filesystem :=
  fun p =>
    if (p =? memory_path)%string then Some (mkFile 1 (dumps snapshot)) else None.

(** A session with the conversation [S1] active and a healthy socket. *)
Definition active_world : World := mkWorld (JStr "S1") [] [] [].

Definition runtime_text (e : exn) : string := "".

Definition py_repr (v : json) : string := "".

Definition ping_message : dict json :=
  [("type", JStr "ping"); ("ping_event", JDict [("event_id", JInt 7)])].



End Sample.

(* ================================================================== *)
(** * Properties                                                       *)
(* ================================================================== *)

Import Py Json Runtime Runner Template Transcript Record.
Import Startup SdkStartup Notions.

(** ** Strings *)

Lemma append_nil_r (s : string) : s ++ "" = s.
Proof. induction s as [|c s IH]; simpl; [reflexivity | now rewrite IH]. Qed.

Lemma append_assoc (a b c : string) : (a ++ b) ++ c = a ++ b ++ c.
Proof. induction a as [|x a IH]; simpl; [reflexivity | now rewrite IH]. Qed.

Lemma length_append (a b : string) :
  String.length (a ++ b) = String.length a + String.length b.
Proof. induction a as [|x a IH]; simpl; [reflexivity | now rewrite IH]. Qed.

Lemma drop_append (a b : string) : drop (String.length a) (a ++ b) = b.
Proof. induction a as [|x a IH]; simpl; [now destruct b | exact IH]. Qed.


(** ** Change detection (claim C10) *)

Lemma changed_keys_iff (curr last : dict string) (k : string) :
  In k (changed_keys curr last) <->
  In k (keys curr) /\ get_or curr k "" <> get_or last k "".
Proof.
  unfold changed_keys. rewrite filter_In, negb_true_iff, String.eqb_neq.
  reflexivity.
Qed.

Lemma keys_get_none {V} (d : dict V) (k : string) :
  dict_get d k = None -> ~ In k (keys d).
Proof.
  induction d as [|[k' v] d IH]; simpl; [tauto|].
  destruct (String.eqb_spec k' k) as [->|ne]; [discriminate|].
  intros H [e|i]; [now apply ne | now apply IH].
Qed.

Lemma changed_keys_nil (curr last : dict string) :
  (forall k, In k (keys curr) -> get_or curr k "" = get_or last k "") ->
  changed_keys curr last = [].
Proof.
  intros H. unfold changed_keys.
  induction (keys curr) as [|k l IH]; simpl; [reflexivity|].
  rewrite (H k (or_introl eq_refl)), String.eqb_refl. simpl.
  apply IH. intros k' i. apply H. now right.
Qed.

(** The memory watcher sends nothing when no key is reported. *)
Lemma watch_memory_tick_quiet cfg path fs st w :
  (forall mem curr,
     load_memory_buffer cfg fs = Ok mem -> to_string_map_of mem = Ok curr ->
     changed_keys curr (last_vars st) = []) ->
  snd (watch_memory_tick cfg path fs st w) = w.
Proof.
  intros H. unfold watch_memory_tick.
  destruct (fs path) as [f|]; [|reflexivity].
  destruct (mtime f <=? last_mtime st)%Z; [reflexivity|].
  destruct (load_memory_buffer cfg fs) as [mem|e]; [|reflexivity].
  destruct (to_string_map_of mem) as [curr|e] eqn:T; [|reflexivity].
  now rewrite (H mem curr eq_refl T).
Qed.

Lemma keys_get_some {V} (d : dict V) (k : string) :
  In k (keys d) -> exists v, dict_get d k = Some v.
Proof.
  induction d as [|[k' v] d IH]; simpl; [tauto|].
  destruct (String.eqb_spec k' k) as [->|ne]; [now exists v|].
  intros [e|i]; [now elim ne | now apply IH].
Qed.

(** C10.  The changed-key list ranges over the keys of the new
    stringified snapshot only, a key absent from the previous snapshot
    counting as the empty string there.  Hence a key that was removed is
    not reported, a key that was added with the empty string as its
    value is not reported, and a tick whose snapshot differs from the
    previous one only in such keys puts nothing on the wire. *)
Theorem changed_keys_ignores_removed_and_empty :
  forall (curr last : dict string),
    (forall k, In k (changed_keys curr last) <->
               In k (keys curr) /\ get_or curr k "" <> get_or last k "") /\
    (forall k, dict_get curr k = None -> ~ In k (changed_keys curr last)) /\
    (forall k, dict_get last k = None -> dict_get curr k = Some "" ->
               ~ In k (changed_keys curr last)) /\
    ((forall k v, dict_get curr k = Some v ->
                  dict_get last k = Some v \/ (dict_get last k = None /\ v = "")) ->
     changed_keys curr last = [] /\
     forall cfg path fs t w mem,
       load_memory_buffer cfg fs = Ok mem -> to_string_map_of mem = Ok curr ->
       wire (snd (watch_memory_tick cfg path fs (mkMemoryWatch t last) w)) = wire w).
Proof.
  intros curr last. split; [|split; [|split]].
  - intros k. apply changed_keys_iff.
  - intros k Hc Hin. apply changed_keys_iff in Hin.
    now apply (keys_get_none curr k Hc).
  - intros k Hl Hc Hin. apply changed_keys_iff in Hin.
    destruct Hin as [_ ne]. apply ne. unfold get_or. now rewrite Hl, Hc.
  - intros H.
    assert (E : changed_keys curr last = []).
    { apply changed_keys_nil. intros k Hin. unfold get_or.
      destruct (keys_get_some curr k Hin) as [v Hc]. rewrite Hc.
      destruct (H k v Hc) as [-> | [-> ->]]; reflexivity. }
    split; [exact E|].
    intros cfg path fs t w mem L T.
    rewrite watch_memory_tick_quiet; [reflexivity|].
    intros mem' curr' L' T'. rewrite L in L'. injection L' as <-.
    rewrite T in T'. injection T' as <-. exact E.
Qed.

(** ** The summary of a tick (claim C8) *)


Lemma ws_send_accepted (payload : json) (w : World) :
  hd false (faults w) = false ->
  ws_send payload w =
  (Ok tt,
   mkWorld (active_conversation_id w) (transcript w) (wire w ++ [payload])
     (tl (faults w))).
Proof.
  unfold ws_send. destruct (faults w) as [|[|] rest]; simpl; try reflexivity.
  discriminate.
Qed.



(** ** The receive loop (claims C3, C2, C9) *)

Section ReceiveLoopFacts.

Variable runtime_text : exn -> string.
Variable cfg : dict json.
Variable fs : filesystem.




End ReceiveLoopFacts.

(** *** The roles of the transcript *)

Section Roles.

Variable roles : list string.









End Roles.






(** ** Forwarding of records (claims C1, C4) *)

Lemma forward_line_record py_repr (line : string) (rec : dict json) (w : World) :
  strip line <> "" -> loads (strip line) = Some (JDict rec) ->
  let target := get_or rec "conversation_id" JNull in
  let text := py_or (get_or rec "text" JNull) (get_or rec "message" JNull) in
  truthy text = true ->
  forward_line py_repr line w =
  if applicable (active_conversation_id w) target
  then ws_send (contextual_update (py_str py_repr text) (active_conversation_id w)) w
  else (Ok tt, w).
Proof.
  intros Hne Hl target text Ht. unfold forward_line.
  apply String.eqb_neq in Hne. rewrite Hne, Hl.
  unfold bind, lift, get_active, ret. simpl attr_get. cbv iota beta.
  fold target. fold text. rewrite Ht. cbn [negb]. cbv beta.
  unfold applicable.
  destruct (truthy target), (truthy (active_conversation_id w)),
    (py_eq target (active_conversation_id w)); reflexivity.
Qed.



(** The snapshot watcher moves its watermark before anything can raise:
    whatever a tick did, a second tick on the unchanged files does
    nothing. *)
Lemma watch_memory_tick_watermark cfg path fs st w f :
  fs path = Some f ->
  (mtime f <= last_mtime (fst (watch_memory_tick cfg path fs st w)))%Z.
Proof.
  intros Hf. unfold watch_memory_tick. rewrite Hf.
  destruct (Z.leb_spec (mtime f) (last_mtime st)) as [le|lt]; [exact le|].
  destruct (load_memory_buffer cfg fs) as [mem|e]; [|simpl; lia].
  destruct (to_string_map_of mem) as [curr|e]; [|simpl; lia].
  destruct (changed_keys curr (last_vars st)); [simpl; lia|].
  destruct (truthy (active_conversation_id w)); [|simpl; lia].
  cbn [negb]. destruct (ws_send _ w) as [[u|e] w1]; simpl; lia.
Qed.

Lemma watch_memory_tick_settled cfg path fs st w w' :
  watch_memory_tick cfg path fs (fst (watch_memory_tick cfg path fs st w)) w' =
  (fst (watch_memory_tick cfg path fs st w), w').
Proof.
  pose proof (watch_memory_tick_watermark cfg path fs st w) as H.
  destruct (watch_memory_tick cfg path fs st w) as [st1 w1]. cbn [fst] in *.
  unfold watch_memory_tick. destruct (fs path) as [f|]; [|reflexivity].
  specialize (H f eq_refl). apply Z.leb_le in H. now rewrite H.
Qed.

(** The queue watcher moves its offset only at the end of a batch that
    did not raise; a batch that raised leaves it where it was. *)
Lemma watch_queue_tick_offset py_repr path fs offset w f :
  fs path = Some f -> offset < String.length (content f) ->
  fst (watch_queue_tick py_repr path fs offset w) =
  match fst (forward_lines py_repr (split_lines (drop offset (content f))) w) with
  | Ok _ => String.length (content f)
  | Raise _ => offset
  end.
Proof.
  intros Hf Hlt. unfold watch_queue_tick. rewrite Hf.
  destruct (Nat.leb_spec (String.length (content f)) offset) as [le|_]; [lia|].
  now destruct (forward_lines _ _ w) as [[u|e] w1].
Qed.

(** C4, at the input where the runner departs from the claim.  The
    queue holds a record followed by a line that is JSON but no object;
    a conversation is active and the socket accepts every message.  The
    second line makes [rec.get] raise outside the [try] that skips
    undecodable lines, the tick ends before [offset = size], and the
    next tick, on the unchanged file, sends the first record again.
    The same happens when the socket refuses a message: the tick keeps
    its offset and the next tick submits the batch again. *)
Theorem queue_record_sent_again :
  let record := dumps (JDict [("text", JStr "hi")]) ++ str1 newline in
  let update := contextual_update "hi" (JStr "S1") in
  let tick content :=
    watch_queue_tick (fun _ => "") "buffer/updates.ndjson"
      (fun p => if (p =? "buffer/updates.ndjson")%string
                then Some (mkFile 1 content) else None) in
  (let content := record ++ "5" ++ str1 newline in
   let (o1, w1) := tick content 0 (mkWorld (JStr "S1") [] [] []) in
   let (o2, w2) := tick content o1 w1 in
   (o1, wire w1) = (0, [update]) /\ (o2, wire w2) = (0, [update; update])) /\
  (let (o1, w1) := tick record 0 (mkWorld (JStr "S1") [] [] [true]) in
   let (o2, w2) := tick record o1 w1 in
   (o1, wire w1) = (0, []) /\ (o2, wire w2) = (String.length record, [update])).
Proof. vm_compute. repeat split. Qed.

(** ** Rendering (claims C5, C6) *)
































(** ** [json.loads] after [json.dumps] (claim C7) *)

Lemma json_induction (P : json -> Prop) :
  P JNull -> (forall b, P (JBool b)) -> (forall n, P (JInt n)) ->
  (forall s, P (JStr s)) ->
  (forall l, Forall P l -> P (JList l)) ->
  (forall d, Forall (fun kv => P (snd kv)) d -> P (JDict d)) ->
  forall v, P v.
Proof.
  intros HN HB HI HS HL HD. fix IH 1. intros [|b|n|s|l|d].
  - exact HN.
  - apply HB.
  - apply HI.
  - apply HS.
  - apply HL. induction l as [|x l IHl]; constructor; [apply IH | exact IHl].
  - apply HD. induction d as [|[k x] d IHd]; constructor; [apply IH | exact IHd].
Qed.

(** *** Numbers *)

Lemma scan_digits_uint (d : Decimal.uint) (rest : string) :
  match rest with String c _ => is_digit c = false | EmptyString => True end ->
  scan_digits (NilEmpty.string_of_uint d ++ rest) = (d, rest).
Proof.
  intros Hr. induction d; cbn [NilEmpty.string_of_uint append scan_digits digit_of];
    try (cbn; rewrite IHd; reflexivity).
  destruct rest as [|c r]; [reflexivity|]. cbn [scan_digits].
  unfold is_digit in Hr. now destruct (digit_of c).
Qed.

Lemma to_uint_normal (p : positive) : Decimal.unorm (Pos.to_uint p) = Pos.to_uint p.
Proof.
  rewrite <- (DecimalPos.Unsigned.to_of (Pos.to_uint p)).
  now rewrite DecimalPos.Unsigned.of_to.
Qed.

Lemma to_uint_head (p : positive) :
  match Pos.to_uint p with
  | Decimal.Nil | Decimal.D0 _ => False
  | _ => True
  end.
Proof.
  pose proof (to_uint_normal p) as E.
  pose proof (DecimalPos.Unsigned.to_uint_nonzero p) as Z.
  pose proof (DecimalPos.Unsigned.to_uint_nonnil p) as N.
  destruct (Pos.to_uint p) as [|u| | | | | | | | |]; try exact I.
  - now elim N.
  - rewrite DecimalFacts.unorm_D0 in E.
    destruct u as [|u'| | | | | | | | |]; try (now elim Z);
      match type of E with
      | Decimal.unorm ?u = _ =>
          assert (L : Decimal.nb_digits (Decimal.unorm u) <= Decimal.nb_digits u)
            by (apply DecimalFacts.nb_digits_unorm; discriminate);
          rewrite E in L; cbn [Decimal.nb_digits] in L; lia
      end.
Qed.

Lemma scan_int_to_uint (p : positive) (rest : string) :
  number_end rest = true ->
  scan_int (NilEmpty.string_of_uint (Pos.to_uint p) ++ rest) =
  Some (Pos.to_uint p, rest).
Proof.
  intros Hr.
  assert (Hd : match rest with String c _ => is_digit c = false | EmptyString => True end).
  { destruct rest as [|c r]; [exact I|]. cbn [number_end] in Hr.
    apply andb_true_iff in Hr. destruct Hr as [Hr _].
    now apply negb_true_iff in Hr. }
  pose proof (to_uint_head p) as H.
  pose proof (scan_digits_uint (Pos.to_uint p) rest Hd) as E.
  destruct (Pos.to_uint p) as [|u|u|u|u|u|u|u|u|u|u]; try (now elim H);
    cbn [NilEmpty.string_of_uint append] in *; unfold scan_int;
    cbn [Ascii.eqb Bool.eqb is_digit digit_of]; now rewrite E.
Qed.

Lemma string_of_uint_to_uint (p : positive) :
  NilZero.string_of_uint (Pos.to_uint p) = NilEmpty.string_of_uint (Pos.to_uint p).
Proof.
  pose proof (DecimalPos.Unsigned.to_uint_nonnil p) as N.
  unfold NilZero.string_of_uint. destruct (Pos.to_uint p); [now elim N | reflexivity..].
Qed.

Lemma number_end_not_float (rest : string) :
  number_end rest = true -> starts_float rest = false.
Proof.
  destruct rest as [|c r]; [reflexivity|]. cbn [number_end].
  rewrite andb_true_iff, !negb_true_iff. tauto.
Qed.

Lemma uint_head (d : Decimal.uint) (rest : string) :
  d <> Decimal.Nil ->
  match NilEmpty.string_of_uint d ++ rest with
  | String c _ => is_digit c = true
  | EmptyString => False
  end.
Proof. destruct d; intros N; try reflexivity. now elim N. Qed.

Lemma scan_number_str_of_Z (z : Z) (rest : string) :
  number_end rest = true ->
  scan_number (str_of_Z z ++ rest) = Some (z, rest) /\
  numeral_head (str_of_Z z ++ rest) = true.
Proof.
  intros Hr. pose proof (number_end_not_float rest Hr) as Hf.
  unfold str_of_Z. destruct z as [|p|p]; cbn [Z.to_int NilZero.string_of_int].
  - split; [|reflexivity]. cbn. now rewrite Hf.
  - rewrite string_of_uint_to_uint.
    pose proof (scan_int_to_uint p rest Hr) as E.
    pose proof (uint_head (Pos.to_uint p) rest (DecimalPos.Unsigned.to_uint_nonnil p)) as Hh.
    destruct (NilEmpty.string_of_uint (Pos.to_uint p) ++ rest) as [|c r] eqn:Es;
      [now elim Hh|].
    split.
    + unfold scan_number.
      assert (Hm : (c =? "-")%char = false).
      { apply Ascii.eqb_neq. intros ->. discriminate. }
      rewrite Hm, E, Hf. f_equal. f_equal.
      change (Decimal.Pos (Pos.to_uint p)) with (Z.to_int (Z.pos p)).
      apply DecimalZ.of_to.
    + cbn [numeral_head]. now rewrite Hh.
  - rewrite string_of_uint_to_uint. cbn [append]. split; [|reflexivity].
    unfold scan_number. change ("-" =? "-")%char with true. cbv iota beta.
    rewrite (scan_int_to_uint p rest Hr), Hf. f_equal. f_equal.
    change (Decimal.Neg (Pos.to_uint p)) with (Z.to_int (Z.neg p)).
    apply DecimalZ.of_to.
Qed.

(** *** Strings *)

Lemma scan_string_escape_char (c : ascii) (t : string) :
  scan_string (escape_char c ++ t) = prepend (str1 c) (scan_string t).
Proof.
  destruct c as [[] [] [] [] [] [] [] []]; reflexivity.
Qed.

Lemma scan_string_escape (s rest : string) :
  scan_string (escape s ++ String dquote rest) = Some (s, rest).
Proof.
  induction s as [|c s IH]; [reflexivity|].
  cbn [escape]. rewrite append_assoc, scan_string_escape_char, IH.
  reflexivity.
Qed.

(** *** Values *)

Lemma parse_value_S (f : nat) (c : ascii) (r : string) :
  parse_value (S f) (String c r) =
  if (nat_of_ascii c =? 34)%nat then
    match scan_string r with
    | Some (t, rest) => Some (JStr t, rest)
    | None => None
    end
  else if (c =? "{")%char then
    match skip_ws r with
    | String c1 r1 =>
        if (c1 =? "}")%char then Some (JDict [], r1)
        else
          match parse_members f (String c1 r1) with
          | Some (ps, rest) => Some (JDict (dict_of_pairs ps), rest)
          | None => None
          end
    | EmptyString => None
    end
  else if (c =? "[")%char then
    match skip_ws r with
    | String c1 r1 =>
        if (c1 =? "]")%char then Some (JList [], r1)
        else
          match parse_elems f (String c1 r1) with
          | Some (vs, rest) => Some (JList vs, rest)
          | None => None
          end
    | EmptyString => None
    end
  else if prefix "null" (String c r) then Some (JNull, drop 4 (String c r))
  else if prefix "true" (String c r) then Some (JBool true, drop 4 (String c r))
  else if prefix "false" (String c r) then Some (JBool false, drop 5 (String c r))
  else
    match scan_number (String c r) with
    | Some (n, rest) => Some (JInt n, rest)
    | None => None
    end.
Proof. reflexivity. Qed.

Lemma parse_elems_S (f : nat) (s : string) :
  parse_elems (S f) s =
  match parse_value f s with
  | Some (v, r) =>
      match skip_ws r with
      | String c r1 =>
          if (c =? ",")%char then
            match parse_elems f (skip_ws r1) with
            | Some (vs, rest) => Some (v :: vs, rest)
            | None => None
            end
          else if (c =? "]")%char then Some ([v], r1)
          else None
      | EmptyString => None
      end
  | None => None
  end.
Proof. reflexivity. Qed.

Lemma parse_members_S (f : nat) (r : string) :
  parse_members (S f) (String dquote r) =
  match scan_string r with
  | Some (k, r1) =>
      match skip_ws r1 with
      | String c r2 =>
          if (c =? ":")%char then
            match parse_value f (skip_ws r2) with
            | Some (v, r3) =>
                match skip_ws r3 with
                | String c3 r4 =>
                    if (c3 =? ",")%char then
                      match parse_members f (skip_ws r4) with
                      | Some (ps, rest) => Some ((k, v) :: ps, rest)
                      | None => None
                      end
                    else if (c3 =? "}")%char then Some ([(k, v)], r4)
                    else None
                | EmptyString => None
                end
            | None => None
            end
          else None
      | EmptyString => None
      end
  | None => None
  end.
Proof. reflexivity. Qed.

Lemma parse_value_number (f : nat) (s : string) :
  numeral_head s = true ->
  parse_value (S f) s =
  match scan_number s with
  | Some (n, rest) => Some (JInt n, rest)
  | None => None
  end.
Proof.
  destruct s as [|c r]; [discriminate|]. intros H.
  destruct c as [[] [] [] [] [] [] [] []];
    try (cbv in H; discriminate H); reflexivity.
Qed.

Lemma decodes_scalar :
  decodes JNull /\ (forall b, decodes (JBool b)) /\
  (forall n, decodes (JInt n)) /\ (forall s, decodes (JStr s)).
Proof.
  unfold decodes. repeat split.
  - intros [|f] rest Hf Hr; [simpl in Hf; lia|]. now destruct rest.
  - intros b [|f] rest Hf Hr; [simpl in Hf; lia|]. now destruct b, rest.
  - intros n [|f] rest Hf Hr; [simpl in Hf; lia|]. cbn [dumps].
    destruct (scan_number_str_of_Z n rest Hr) as [E H].
    now rewrite (parse_value_number f _ H), E.
  - intros s [|f] rest Hf Hr; [simpl in Hf; lia|]. cbn [dumps].
    unfold encode_str, str1. cbn [append]. rewrite append_assoc. cbn [append].
    rewrite parse_value_S. change (nat_of_ascii dquote =? 34)%nat with true.
    cbv iota. now rewrite scan_string_escape.
Qed.

Lemma value_head_dumps (v : json) (rest : string) :
  value_head (dumps v ++ rest) = true.
Proof.
  destruct v as [|[|]|n|s|l|d]; try reflexivity.
  cbn [dumps].
  assert (H : numeral_head (str_of_Z n ++ "") = true).
  { apply scan_number_str_of_Z. reflexivity. }
  rewrite append_nil_r in H.
  destruct (str_of_Z n) as [|c r]; [discriminate|].
  cbn [append value_head]. cbn [numeral_head] in H.
  destruct c as [[] [] [] [] [] [] [] []]; try (cbv in H; discriminate H); reflexivity.
Qed.

Lemma skip_ws_value (s : string) : value_head s = true -> skip_ws s = s.
Proof.
  destruct s as [|c r]; [reflexivity|]. cbn [value_head skip_ws].
  rewrite !andb_true_iff, negb_true_iff. now intros [[-> _] _].
Qed.

Lemma skip_ws_keep (c : ascii) (t : string) :
  is_ws c = false -> skip_ws (String c t) = String c t.
Proof. intros H. cbn [skip_ws]. now rewrite H. Qed.

Lemma skip_ws_space (t : string) : skip_ws (String " " t) = skip_ws t.
Proof. reflexivity. Qed.

Lemma value_head_join (x : json) (l : list json) (rest : string) :
  value_head (join ", " (map dumps (x :: l)) ++ rest) = true.
Proof.
  cbn [map join]. destruct (map dumps l); [apply value_head_dumps|].
  rewrite append_assoc. apply value_head_dumps.
Qed.

Lemma decodes_elems (l : list json) :
  Forall decodes l -> l <> [] ->
  forall fuel rest,
    list_sum (map (fun x => S (jsize x)) l) <= fuel ->
    parse_elems fuel (join ", " (map dumps l) ++ String "]" rest) = Some (l, rest).
Proof.
  induction l as [|x l IH]; intros Hl Hne fuel rest Hf; [now elim Hne|].
  inversion Hl as [|? ? Hx Hl']; subst.
  cbn [map list_sum] in Hf. destruct fuel as [|f]; [simpl in Hf; lia|].
  rewrite parse_elems_S.
  destruct l as [|y l].
  - cbn [map join]. rewrite (Hx f (String "]" rest)) by (simpl in *; try lia; reflexivity).
    rewrite (skip_ws_keep "]" _ eq_refl). reflexivity.
  - assert (E : join ", " (map dumps (x :: y :: l)) ++ String "]" rest =
                dumps x ++ String "," (String " "
                  (join ", " (map dumps (y :: l)) ++ String "]" rest))).
    { cbn [map join]. rewrite !append_assoc. reflexivity. }
    rewrite E. rewrite (Hx f) by (simpl in *; try lia; reflexivity).
    rewrite (skip_ws_keep "," _ eq_refl).
    change ("," =? ",")%char with true. cbv iota.
    rewrite skip_ws_space.
    rewrite (skip_ws_value _ (value_head_join y l _)).
    rewrite (IH Hl') by (try discriminate; simpl in *; lia).
    reflexivity.
Qed.

Lemma member_text (k : string) (v : json) (tail : string) :
  (encode_str k ++ ": " ++ dumps v) ++ tail =
  String dquote (escape k ++ String dquote (String ":" (String " " (dumps v ++ tail)))).
Proof.
  unfold encode_str, str1. cbn [append]. rewrite !append_assoc. reflexivity.
Qed.

Lemma decodes_members (d : list (string * json)) :
  Forall (fun kv => decodes (snd kv)) d -> d <> [] ->
  forall fuel rest,
    list_sum (map (fun kv => S (jsize (snd kv))) d) <= fuel ->
    parse_members fuel
      (join ", " (map (fun kv => encode_str (fst kv) ++ ": " ++ dumps (snd kv)) d)
       ++ String "}" rest) = Some (d, rest).
Proof.
  induction d as [|[k x] d IH]; intros Hd Hne fuel rest Hf; [now elim Hne|].
  inversion Hd as [|? ? Hx Hd']; subst. cbn [snd] in Hx.
  cbn [map list_sum snd] in Hf. destruct fuel as [|f]; [simpl in Hf; lia|].
  destruct d as [|[k' y] d].
  - cbn [map join fst snd]. rewrite member_text, parse_members_S.
    rewrite scan_string_escape.
    rewrite (skip_ws_keep ":" _ eq_refl).
    change (":" =? ":")%char with true. cbv iota.
    rewrite skip_ws_space, (skip_ws_value _ (value_head_dumps x _)).
    rewrite (Hx f (String "}" rest)) by (simpl in *; try lia; reflexivity).
    rewrite (skip_ws_keep "}" _ eq_refl). reflexivity.
  - assert (E : join ", "
                  (map (fun kv => encode_str (fst kv) ++ ": " ++ dumps (snd kv))
                     ((k, x) :: (k', y) :: d)) ++ String "}" rest =
                (encode_str k ++ ": " ++ dumps x) ++
                String "," (String " "
                  (join ", "
                     (map (fun kv => encode_str (fst kv) ++ ": " ++ dumps (snd kv))
                        ((k', y) :: d)) ++ String "}" rest))).
    { cbn [map join fst snd]. rewrite !append_assoc. reflexivity. }
    rewrite E, member_text, parse_members_S. clear E.
    rewrite scan_string_escape.
    rewrite (skip_ws_keep ":" _ eq_refl).
    change (":" =? ":")%char with true. cbv iota.
    rewrite skip_ws_space, (skip_ws_value _ (value_head_dumps x _)).
    rewrite (Hx f) by (simpl in *; try lia; reflexivity).
    rewrite (skip_ws_keep "," _ eq_refl).
    change ("," =? ",")%char with true. cbv iota.
    rewrite skip_ws_space.
    assert (Hh : forall t,
              skip_ws
                (join ", "
                   (map (fun kv => encode_str (fst kv) ++ ": " ++ dumps (snd kv))
                      ((k', y) :: d)) ++ t) =
              join ", "
                (map (fun kv => encode_str (fst kv) ++ ": " ++ dumps (snd kv))
                   ((k', y) :: d)) ++ t).
    { intros t. apply skip_ws_value. cbn [map join fst snd].
      destruct (map _ d); unfold encode_str; reflexivity. }
    rewrite Hh.
    rewrite (IH Hd') by (try discriminate; simpl in *; lia).
    reflexivity.
Qed.

Lemma members_head (k : string) (x : json) (d : list (string * json)) (t : string) :
  exists r,
    join ", "
      (map (fun kv => encode_str (fst kv) ++ ": " ++ dumps (snd kv)) ((k, x) :: d))
    ++ t = String dquote r.
Proof.
  cbn [map join fst snd].
  destruct (map _ d); unfold encode_str; cbn [append]; eauto.
Qed.

Lemma bracket_text (o c : ascii) (a rest : string) :
  (String o "" ++ a ++ String c "") ++ rest = String o (a ++ String c rest).
Proof. cbn [append]. now rewrite append_assoc. Qed.

Lemma distinct_cons (k : string) (l : list string) :
  distinct (k :: l) = true -> ~ In k l /\ distinct l = true.
Proof.
  cbn [distinct]. rewrite andb_true_iff, negb_true_iff. intros [Hk Hl].
  split; [|exact Hl]. intros Hin.
  assert (E : existsb (String.eqb k) l = true)
    by (apply existsb_exists; exists k; split; [exact Hin | apply String.eqb_refl]).
  congruence.
Qed.

Lemma dict_set_fresh {V} (d : dict V) (k : string) (v : V) :
  ~ In k (keys d) -> dict_set d k v = (d ++ [(k, v)])%list.
Proof.
  induction d as [|[k' v'] d IH]; intros Hk; [reflexivity|].
  cbn [dict_set]. destruct (String.eqb_spec k' k) as [->|_].
  - elim Hk. now left.
  - cbn [List.app]. f_equal. apply IH. intros Hin. apply Hk. now right.
Qed.

Lemma fold_dict_set_distinct {V W} (f : W -> V) (d : dict W) (acc : dict V) :
  distinct (keys d) = true -> (forall k, In k (keys d) -> ~ In k (keys acc)) ->
  fold_left (fun out kv => dict_set out (fst kv) (f (snd kv))) d acc =
  (acc ++ map (fun kv => (fst kv, f (snd kv))) d)%list.
Proof.
  revert acc. induction d as [|[k v] d IH]; intros acc Hd Hacc.
  - cbn. now rewrite List.app_nil_r.
  - cbn [keys map fst] in Hd. apply distinct_cons in Hd. destruct Hd as [Hk Hd].
    cbn [fold_left fst snd map].
    rewrite dict_set_fresh by (apply Hacc; now left).
    rewrite IH.
    + now rewrite <- List.app_assoc.
    + exact Hd.
    + intros k' Hin. unfold keys. rewrite map_app, in_app_iff.
      intros [H|[<-|[]]]; [|now apply Hk].
      apply (Hacc k'); [now right | exact H].
Qed.

Lemma dict_of_pairs_distinct (d : list (string * json)) :
  distinct (map fst d) = true -> dict_of_pairs d = d.
Proof.
  intros Hd. unfold dict_of_pairs.
  rewrite (fold_dict_set_distinct (fun v => v) d [] Hd) by (intros k _ []).
  cbn [List.app]. rewrite <- (map_id d) at 2. apply map_ext. now intros [k v].
Qed.

Lemma forallb_Forall_wf (P : json -> Prop) (l : list json) :
  Forall (fun x => wf x = true -> P x) l -> forallb wf l = true -> Forall P l.
Proof.
  induction 1 as [|x l Hx Hl IH]; cbn [forallb]; [constructor|].
  rewrite andb_true_iff. intros [Wx Wl]. constructor; auto.
Qed.

(** A value with well-formed dictionaries decodes from its encoding. *)
Lemma wf_decodes (v : json) : wf v = true -> decodes v.
Proof.
  induction v as [|b|n|s|l IH|d IH] using json_induction; intros Hw.
  - apply decodes_scalar.
  - apply decodes_scalar.
  - apply decodes_scalar.
  - apply decodes_scalar.
  - cbn [wf] in Hw. pose proof (forallb_Forall_wf _ l IH Hw) as Hl.
    intros [|f] rest Hf Hr; [simpl in Hf; lia|]. cbn [dumps jsize] in *.
    rewrite bracket_text, parse_value_S.
    change (nat_of_ascii "[" =? 34)%nat with false.
    change ("[" =? "{")%char with false. change ("[" =? "[")%char with true.
    cbv iota.
    destruct l as [|x l].
    + reflexivity.
    + rewrite (skip_ws_value _ (value_head_join x l _)).
      pose proof (value_head_join x l (String "]" rest)) as Hh.
      pose proof (decodes_elems (x :: l) Hl ltac:(discriminate) f rest
                    ltac:(lia)) as E.
      destruct (join ", " (map dumps (x :: l)) ++ String "]" rest) as [|c r];
        [discriminate|].
      cbn [value_head] in Hh. rewrite !andb_true_iff, !negb_true_iff in Hh.
      destruct Hh as [[_ Hc] _]. rewrite Hc, E. reflexivity.
  - cbn [wf] in Hw. apply andb_true_iff in Hw. destruct Hw as [Hk Hw].
    assert (Hd : Forall (fun kv => decodes (snd kv)) d).
    { clear Hk. induction IH as [|kv d Hx Hd IHd]; [constructor|].
      cbn [forallb] in Hw. apply andb_true_iff in Hw. destruct Hw as [W1 W2].
      constructor; auto. }
    intros [|f] rest Hf Hr; [simpl in Hf; lia|]. cbn [dumps jsize] in *.
    rewrite bracket_text, parse_value_S.
    change (nat_of_ascii "{" =? 34)%nat with false.
    change ("{" =? "{")%char with true.
    cbv iota.
    destruct d as [|[k x] d].
    + reflexivity.
    + pose proof (decodes_members ((k, x) :: d) Hd ltac:(discriminate) f rest
                    ltac:(lia)) as E.
      destruct (members_head k x d (String "}" rest)) as [r Er].
      rewrite Er in E |- *.
      rewrite (skip_ws_keep dquote _ eq_refl).
      change (dquote =? "}")%char with false. cbv iota.
      rewrite E. now rewrite (dict_of_pairs_distinct _ Hk).
Qed.

Lemma str_of_Z_nonempty (n : Z) : 1 <= String.length (str_of_Z n).
Proof.
  assert (H : numeral_head (str_of_Z n ++ "") = true)
    by (apply scan_number_str_of_Z; reflexivity).
  rewrite append_nil_r in H. destruct (str_of_Z n); [discriminate | simpl; lia].
Qed.

Lemma length_join_cons (sep x y : string) (l : list string) :
  String.length (join sep (x :: y :: l)) =
  String.length x + String.length sep + String.length (join sep (y :: l)).
Proof. cbn [join]. rewrite !length_append. lia. Qed.

Lemma jsize_le_length (v : json) : jsize v <= String.length (dumps v).
Proof.
  induction v as [|b|n|s|l IH|d IH] using json_induction.
  - simpl. lia.
  - destruct b; simpl; lia.
  - apply str_of_Z_nonempty.
  - simpl. lia.
  - cbn [jsize dumps]. rewrite !length_append. cbn [String.length].
    assert (H : list_sum (map (fun x => S (jsize x)) l) <=
                String.length (join ", " (map dumps l)) + 1).
    { induction IH as [|x l Hx Hl IHl]; [simpl; lia|].
      unfold list_sum in *. destruct l as [|y l].
      - cbn [map fold_right join]. lia.
      - cbn [map] in *. rewrite length_join_cons. cbn [fold_right] in *.
        change (String.length ", ") with 2. lia. }
    lia.
  - cbn [jsize dumps]. rewrite !length_append. cbn [String.length].
    assert (H : list_sum (map (fun kv => S (jsize (snd kv))) d) <=
                String.length
                  (join ", "
                     (map (fun kv => encode_str (fst kv) ++ ": " ++ dumps (snd kv)) d))
                + 1).
    { induction IH as [|[k x] d Hx Hd IHd]; [simpl; lia|].
      cbn [snd] in Hx. unfold list_sum in *. destruct d as [|[k' y] d].
      - cbn [map fold_right join fst snd]. rewrite !length_append. lia.
      - cbn [map] in *. rewrite length_join_cons. cbn [fold_right fst snd] in *.
        rewrite !length_append. change (String.length ", ") with 2. lia. }
    lia.
Qed.

(** [json.loads(json.dumps(v, ensure_ascii=False)) == v] *)
Lemma loads_dumps (v : json) : wf v = true -> loads (dumps v) = Some v.
Proof.
  intros Hw. unfold loads.
  pose proof (value_head_dumps v "") as Hh. rewrite append_nil_r in Hh.
  rewrite (skip_ws_value _ Hh).
  pose proof (wf_decodes v Hw (S (String.length (dumps v))) "") as E.
  rewrite append_nil_r in E. rewrite E; [reflexivity | | reflexivity].
  pose proof (jsize_le_length v). lia.
Qed.

(** *** One line *)

Lemma one_line_append (a b : string) :
  one_line (a ++ b) = one_line a && one_line b.
Proof.
  induction a as [|c a IH]; cbn [append one_line]; [reflexivity|].
  now rewrite IH, andb_assoc.
Qed.

Lemma one_line_escape (s : string) : one_line (escape s) = true.
Proof.
  induction s as [|c s IH]; [reflexivity|].
  cbn [escape]. rewrite one_line_append, IH, andb_true_r.
  destruct c as [[] [] [] [] [] [] [] []]; reflexivity.
Qed.

Lemma one_line_encode_str (s : string) : one_line (encode_str s) = true.
Proof.
  unfold encode_str, str1. cbn [one_line]. rewrite one_line_append, one_line_escape.
  reflexivity.
Qed.

Lemma one_line_uint (d : Decimal.uint) : one_line (NilEmpty.string_of_uint d) = true.
Proof. induction d; cbn [NilEmpty.string_of_uint one_line]; try rewrite IHd; reflexivity. Qed.

Lemma one_line_str_of_Z (n : Z) : one_line (str_of_Z n) = true.
Proof.
  unfold str_of_Z. destruct n as [|p|p]; cbn [Z.to_int NilZero.string_of_int].
  - reflexivity.
  - rewrite string_of_uint_to_uint. apply one_line_uint.
  - rewrite string_of_uint_to_uint. cbn [append one_line]. apply one_line_uint.
Qed.

Lemma one_line_join (l : list string) :
  Forall (fun x => one_line x = true) l -> one_line (join ", " l) = true.
Proof.
  induction 1 as [|x l Hx Hl IH]; [reflexivity|].
  destruct l as [|y l]; [exact Hx|].
  cbn [join] in *. rewrite !one_line_append, Hx, IH. reflexivity.
Qed.

Lemma one_line_dumps (v : json) : one_line (dumps v) = true.
Proof.
  induction v as [|b|n|s|l IH|d IH] using json_induction.
  - reflexivity.
  - now destruct b.
  - apply one_line_str_of_Z.
  - apply one_line_encode_str.
  - cbn [dumps]. rewrite !one_line_append, one_line_join; [reflexivity|].
    induction IH; constructor; auto.
  - cbn [dumps]. rewrite !one_line_append, one_line_join; [reflexivity|].
    induction IH as [|[k x] d Hx Hd IHd]; constructor; auto.
    cbn [fst snd] in *. now rewrite !one_line_append, one_line_encode_str, Hx.
Qed.

(** *** [to_string_map] *)


Lemma to_string_map_distinct (d : dict json) :
  distinct (keys d) = true ->
  to_string_map d = map (fun kv => (fst kv, stringify (snd kv))) d.
Proof.
  intros Hd. unfold to_string_map.
  now rewrite (fold_dict_set_distinct stringify d [] Hd) by (intros k _ []).
Qed.




(** ** The theorems at sample inputs *)









Lemma changed_keys_ignores_removed_and_empty_witness :
  changed_keys [("x", "1"); ("n", "")] [("x", "1"); ("gone", "2")] = [] /\
  wire (snd (watch_memory_tick Sample.cfg Sample.memory_path Sample.fs
               (mkMemoryWatch 0
                  (("gone", "2") ::
                   map (fun k => (k, "1"))
                     ["a"; "b"; "c"; "d"; "e"; "f"; "g"; "h"; "i"; "j"; "k"; "l"]))
               Sample.active_world)) = [].
Proof.
  split.
  - refine (proj1 (proj2 (proj2 (proj2 (changed_keys_ignores_removed_and_empty
                                          [("x", "1"); ("n", "")]
                                          [("x", "1"); ("gone", "2")]))) _)).
    intros k v. cbn [dict_get].
    destruct (String.eqb_spec "x" k) as [<-|_]; [intros [= <-]; now left|].
    destruct (String.eqb_spec "n" k) as [<-|_]; [intros [= <-]; now right|].
    discriminate.
  - refine (proj2 (proj2 (proj2 (proj2 (changed_keys_ignores_removed_and_empty
                                          (map (fun k => (k, "1"))
                                             ["a"; "b"; "c"; "d"; "e"; "f"; "g"; "h";
                                              "i"; "j"; "k"; "l"])
                                          (("gone", "2") ::
                                           map (fun k => (k, "1"))
                                             ["a"; "b"; "c"; "d"; "e"; "f"; "g"; "h";
                                              "i"; "j"; "k"; "l"])))) _)
                    Sample.cfg Sample.memory_path Sample.fs 0%Z Sample.active_world
                    Sample.snapshot _ _); [|vm_compute; reflexivity..].
    intros k v Hk. left. revert Hk. cbn [map dict_get].
    destruct ("gone" =? k)%string eqn:E; [|trivial].
    apply String.eqb_eq in E. subst k. vm_compute. discriminate.
Defined.
(* ================================================================== *)
(** * Further properties of the runners                                *)
(* ================================================================== *)

(** ** From [--enqueue-update] to the wire *)

Lemma lstrip_keep (c : ascii) (r : string) :
  is_space c = false -> lstrip (String c r) = String c r.
Proof. intros H. cbn [lstrip]. now rewrite H. Qed.

Lemma rstrip_keep (x : string) (c : ascii) :
  is_space c = false -> rstrip (x ++ str1 c) = x ++ str1 c.
Proof.
  intros H. induction x as [|a x IH].
  - cbn [append rstrip str1]. now rewrite H.
  - cbn [append rstrip]. rewrite IH. destruct x; reflexivity.
Qed.

Lemma strip_dumps_dict (d : list (string * json)) :
  strip (dumps (JDict d)) = dumps (JDict d).
Proof.
  assert (F : dumps (JDict d) =
              String "{" (join ", "
                (map (fun kv => encode_str (fst kv) ++ ": " ++ dumps (snd kv)) d))
              ++ str1 "}") by reflexivity.
  unfold strip. rewrite F at 1. cbn [append].
  rewrite (lstrip_keep "{" _ eq_refl).
  change (String "{" (?a ++ str1 "}")) with (String "{" a ++ str1 "}").
  rewrite (rstrip_keep _ "}" eq_refl). now rewrite F.
Qed.

Lemma dumps_nonempty (v : json) : dumps v <> "".
Proof.
  pose proof (value_head_dumps v "") as H. rewrite append_nil_r in H.
  now destruct (dumps v).
Qed.

(** The record of a line of [enqueue_line]. *)
Lemma enqueue_line_record (text : string) (conv : option string) :
  enqueue_line text conv =
  dumps (JDict (("text", JStr text) ::
                match enqueued_target conv with
                | JNull => []
                | t => [("conversation_id", t)]
                end)) ++ str1 newline.
Proof.
  unfold enqueue_line, enqueued_target. destruct conv as [c|]; [|reflexivity].
  now destruct (c =? "")%string.
Qed.

Lemma forward_line_enqueued py_repr (line text : string) (conv : option string)
    (w : World) :
  line ++ str1 newline = enqueue_line text conv ->
  forward_line py_repr line w =
  if negb (text =? "")%string &&
     applicable (active_conversation_id w) (enqueued_target conv)
  then ws_send (contextual_update text (active_conversation_id w)) w
  else (Ok tt, w).
Proof.
  intros Hline. rewrite enqueue_line_record in Hline.
  set (d := ("text", JStr text) ::
            match enqueued_target conv with
            | JNull => []
            | t => [("conversation_id", t)]
            end) in *.
  assert (Hd : line = dumps (JDict d)).
  { revert Hline. generalize (dumps (JDict d)). clear.
    induction line as [|a l IH]; intros [|b s] H; cbn [append str1] in H.
    - reflexivity.
    - injection H as _ H. now destruct s.
    - injection H as _ H. now destruct l.
    - injection H as -> H. f_equal. now apply IH. }
  assert (Hs : strip line = dumps (JDict d))
    by (rewrite Hd; apply strip_dumps_dict).
  assert (Hw : wf (JDict d) = true).
  { subst d. unfold enqueued_target. destruct conv as [c|]; [|reflexivity].
    now destruct (c =? "")%string. }
  assert (Hl : loads (strip line) = Some (JDict d))
    by (rewrite Hs; now apply loads_dumps).
  assert (Hne : strip line <> "")
    by (rewrite Hs; apply dumps_nonempty).
  assert (Ht : get_or d "conversation_id" JNull = enqueued_target conv).
  { subst d. unfold enqueued_target. destruct conv as [c|]; [|reflexivity].
    now destruct (c =? "")%string. }
  assert (Hx : py_or (get_or d "text" JNull) (get_or d "message" JNull) =
               if (text =? "")%string then JNull else JStr text).
  { subst d. unfold get_or at 1. cbn [dict_get String.eqb Ascii.eqb Bool.eqb].
    unfold py_or. cbn [truthy].
    destruct (text =? "")%string; [|reflexivity].
    cbn [negb]. unfold enqueued_target. destruct conv as [c|]; [|reflexivity].
    now destruct (c =? "")%string. }
  destruct (String.eqb_spec text "") as [->|Hn].
  - cbn [negb andb]. unfold forward_line.
    apply String.eqb_neq in Hne. rewrite Hne, Hl.
    unfold bind, lift, ret. cbn [attr_get]. cbv iota beta. rewrite Hx.
    reflexivity.
  - cbn [negb andb].
    pose proof (forward_line_record py_repr line d w Hne Hl) as E.
    cbv zeta in E. rewrite Hx, Ht in E. apply E.
    apply String.eqb_neq in Hn. cbn [truthy]. now rewrite Hn.
Qed.

Lemma one_line_not_newline (c : ascii) :
  (32 <=? nat_of_ascii c)%nat = true -> is_newline c = false.
Proof.
  unfold is_newline. intros H. apply Nat.leb_le in H.
  destruct (Nat.eqb_spec (nat_of_ascii c) 10) as [e|_]; [lia|].
  destruct (Nat.eqb_spec (nat_of_ascii c) 13) as [e|_]; [lia|reflexivity].
Qed.

Lemma split_lines_line (s rest : string) :
  one_line s = true ->
  split_lines (s ++ String newline rest) = s :: split_lines rest.
Proof.
  induction s as [|c s IH]; intros H.
  - reflexivity.
  - cbn [one_line] in H. apply andb_true_iff in H. destruct H as [Hc Hs].
    cbn [append split_lines]. rewrite (one_line_not_newline c Hc).
    now rewrite (IH Hs).
Qed.

Lemma forward_lines_enqueued py_repr (recs : list (string * option string))
    (w : World) :
  faults w = [] ->
  forward_lines py_repr (split_lines (enqueued recs)) w =
  (Ok tt,
   mkWorld (active_conversation_id w) (transcript w)
     (wire w ++ forwarded (active_conversation_id w) recs) []).
Proof.
  revert w. induction recs as [|[text conv] recs IH]; intros w Hf.
  - cbn. unfold ret. rewrite List.app_nil_r. destruct w; cbn in *. now subst.
  - cbn [enqueued fold_right fst snd].
    rewrite enqueue_line_record, append_assoc. cbn [str1 append].
    rewrite split_lines_line by apply one_line_dumps.
    cbn [forward_lines]. unfold bind at 1.
    rewrite (forward_line_enqueued py_repr _ text conv w)
      by (now rewrite enqueue_line_record).
    unfold forwarded. cbn [filter fst snd].
    destruct (negb (text =? "")%string &&
              applicable (active_conversation_id w) (enqueued_target conv)).
    + rewrite ws_send_accepted by (now rewrite Hf).
      fold (enqueued recs). rewrite IH by (now rewrite Hf).
      cbn [active_conversation_id transcript wire map fst].
      now rewrite <- List.app_assoc.
    + fold (enqueued recs). now rewrite IH.
Qed.

(** X1.  Lines that [main --enqueue-update] appended to the queue since
    the watcher's offset are read back by the next tick as the records
    that were written.  On a socket that accepts every message the tick
    sends, in the order of the lines, one contextual update for each
    record that has a non-empty text and is applicable (a conversation
    is active and the record's conversation id is missing, empty or the
    active one), with the text as it was given, and moves the offset to
    the end of the file.  The other records are consumed without being
    sent: a record enqueued while no conversation is active is lost. *)
Theorem enqueued_updates_forwarded_in_order :
  forall py_repr path fs f (old : string)
         (recs : list (string * option string)) (w : World),
    fs path = Some f ->
    content f = old ++ enqueued recs ->
    faults w = [] ->
    watch_queue_tick py_repr path fs (String.length old) w =
    (String.length (content f),
     mkWorld (active_conversation_id w) (transcript w)
       (wire w ++ forwarded (active_conversation_id w) recs) []).
Proof.
  intros py_repr path fs f old recs w Hfs Hc Hf.
  unfold watch_queue_tick. rewrite Hfs, Hc, drop_append.
  rewrite forward_lines_enqueued by exact Hf.
  destruct (Nat.leb_spec (String.length (old ++ enqueued recs)) (String.length old))
    as [le|_]; [|reflexivity].
  rewrite length_append in le.
  assert (E : enqueued recs = "").
  { destruct (enqueued recs); [reflexivity | cbn in le; lia]. }
  destruct recs as [|[text conv] recs].
  - cbn. rewrite append_nil_r, List.app_nil_r. destruct w; cbn in *. now subst.
  - cbn [enqueued fold_right fst snd] in E. rewrite enqueue_line_record in E.
    destruct (dumps _) eqn:D in E; [now apply dumps_nonempty in D | discriminate].
Qed.

Lemma enqueued_updates_forwarded_in_order_witness :
  let recs := [("hi", None); ("", None); ("no", Some "S2"); ("ok", Some "S1")] in
  let fs p :=
    if (p =? "buffer/updates.ndjson")%string
    then Some (mkFile 1 ("{}" ++ str1 newline ++ enqueued recs)) else None in
  watch_queue_tick Sample.py_repr "buffer/updates.ndjson" fs 3 Sample.active_world =
  (111,
   mkWorld (JStr "S1") []
     [contextual_update "hi" (JStr "S1"); contextual_update "ok" (JStr "S1")] []).
Proof.
  cbv zeta.
  exact (enqueued_updates_forwarded_in_order Sample.py_repr "buffer/updates.ndjson"
           (fun p =>
              if (p =? "buffer/updates.ndjson")%string
              then Some (mkFile 1 ("{}" ++ str1 newline ++
                     enqueued [("hi", None); ("", None); ("no", Some "S2");
                               ("ok", Some "S1")]))
              else None)
           (mkFile 1 ("{}" ++ str1 newline ++
                     enqueued [("hi", None); ("", None); ("no", Some "S2");
                               ("ok", Some "S1")]))
           ("{}" ++ str1 newline)
           [("hi", None); ("", None); ("no", Some "S2"); ("ok", Some "S1")]
           Sample.active_world eq_refl eq_refl eq_refl).
Defined.

(** ** The watchers *)

Lemma changed_keys_same (vars : dict string) : changed_keys vars vars = [].
Proof. now apply changed_keys_nil. Qed.



(** X3.  A change of the snapshot that the watcher sees while no
    conversation is active is never reported.  The tick sends nothing
    and takes the new variables as the ones to compare with, so a later
    tick that finds the same stringified variables, whatever the
    modification time of the file and whether or not a conversation is
    active by then, sends nothing either. *)
Theorem snapshot_change_before_conversation_is_absorbed :
  forall cfg path fs st w f mem curr,
    fs path = Some f -> (last_mtime st < mtime f)%Z ->
    load_memory_buffer cfg fs = Ok mem -> to_string_map_of mem = Ok curr ->
    truthy (active_conversation_id w) = false ->
    watch_memory_tick cfg path fs st w = (mkMemoryWatch (mtime f) curr, w) /\
    forall fs2 mem2 w2,
      load_memory_buffer cfg fs2 = Ok mem2 -> to_string_map_of mem2 = Ok curr ->
      snd (watch_memory_tick cfg path fs2 (mkMemoryWatch (mtime f) curr) w2) = w2.
Proof.
  intros cfg path fs st w f mem curr Hf Hm Hl Ht Ha. split.
  - unfold watch_memory_tick. rewrite Hf.
    destruct (Z.leb_spec (mtime f) (last_mtime st)) as [le|_]; [lia|].
    rewrite Hl, Ht, Ha. cbn [negb].
    now destruct (changed_keys curr (last_vars st)).
  - intros fs2 mem2 w2 Hl2 Ht2. apply watch_memory_tick_quiet.
    intros mem' curr' Hl' Ht'. rewrite Hl2 in Hl'. injection Hl' as <-.
    rewrite Ht2 in Ht'. injection Ht' as <-. apply changed_keys_same.
Qed.

Lemma snapshot_change_before_conversation_is_absorbed_witness :
  let idle := mkWorld JNull [] [] [] in
  let later p :=
    if (p =? Sample.memory_path)%string
    then Some (mkFile 9 (dumps Sample.snapshot)) else None in
  watch_memory_tick Sample.cfg Sample.memory_path Sample.fs (mkMemoryWatch 0 []) idle =
  (mkMemoryWatch 1
     (map (fun k => (k, "1"))
        ["a"; "b"; "c"; "d"; "e"; "f"; "g"; "h"; "i"; "j"; "k"; "l"]),
   idle) /\
  snd (watch_memory_tick Sample.cfg Sample.memory_path later
         (mkMemoryWatch 1
            (map (fun k => (k, "1"))
               ["a"; "b"; "c"; "d"; "e"; "f"; "g"; "h"; "i"; "j"; "k"; "l"]))
         Sample.active_world) = Sample.active_world.
Proof.
  cbv zeta.
  pose proof (snapshot_change_before_conversation_is_absorbed Sample.cfg
                Sample.memory_path Sample.fs (mkMemoryWatch 0 [])
                (mkWorld JNull [] [] []) (mkFile 1 (dumps Sample.snapshot))
                Sample.snapshot
                (map (fun k => (k, "1"))
                   ["a"; "b"; "c"; "d"; "e"; "f"; "g"; "h"; "i"; "j"; "k"; "l"])
                eq_refl eq_refl) as H.
  assert (L : load_memory_buffer Sample.cfg Sample.fs = Ok Sample.snapshot)
    by (vm_compute; reflexivity).
  destruct (H L eq_refl eq_refl) as [H1 H2]. split; [exact H1|].
  apply (H2 _ Sample.snapshot); vm_compute; reflexivity.
Defined.

(** *** What the watchers put on the wire *)

Lemma only_updates_refl (w : World) : only_updates w w.
Proof.
  repeat split. exists []. cbn. now rewrite List.app_nil_r.
Qed.

Lemma only_updates_trans (w1 w2 w3 : World) :
  only_updates w1 w2 -> only_updates w2 w3 -> only_updates w1 w3.
Proof.
  intros (A1 & T1 & l1 & W1) (A2 & T2 & l2 & W2).
  split; [congruence|]. split; [congruence|].
  exists (l1 ++ l2)%list. rewrite W2, W1, A1, map_app. now rewrite List.app_assoc.
Qed.

Lemma only_updates_send (text : string) (w : World) :
  only_updates w (snd (ws_send (contextual_update text (active_conversation_id w)) w)).
Proof.
  unfold ws_send. destruct (faults w) as [|[|] rest]; cbn.
  - repeat split. now exists [text].
  - repeat split. exists []. cbn. now rewrite List.app_nil_r.
  - repeat split. now exists [text].
Qed.

(** A line does nothing, or hands one contextual update for the active
    conversation to the socket. *)
Lemma forward_line_cases py_repr (line : string) (w : World) :
  (truthy (active_conversation_id w) = false ->
   snd (forward_line py_repr line w) = w) /\
  only_updates w (snd (forward_line py_repr line w)).
Proof.
  unfold forward_line.
  destruct (strip line =? "")%string; [split; [reflexivity | apply only_updates_refl]|].
  destruct (loads (strip line)) as [rec|]; [|split; [reflexivity | apply only_updates_refl]].
  destruct rec as [| | | | |d];
    try (split; [reflexivity | apply only_updates_refl]).
  unfold bind, lift, get_active, ret. cbn [attr_get]. cbv iota beta.
  destruct (negb (truthy (py_or (get_or d "text" JNull) (get_or d "message" JNull))));
    [split; [reflexivity | apply only_updates_refl]|].
  destruct (truthy (get_or d "conversation_id" JNull) &&
            truthy (active_conversation_id w) &&
            negb (py_eq (get_or d "conversation_id" JNull) (active_conversation_id w)));
    [split; [reflexivity | apply only_updates_refl]|].
  destruct (truthy (active_conversation_id w)) eqn:Ha; cbn [negb].
  - split; [discriminate | apply only_updates_send].
  - split; [reflexivity | apply only_updates_refl].
Qed.

Lemma forward_lines_cases py_repr (lines : list string) (w : World) :
  (truthy (active_conversation_id w) = false ->
   snd (forward_lines py_repr lines w) = w) /\
  only_updates w (snd (forward_lines py_repr lines w)).
Proof.
  revert w. induction lines as [|line rest IH]; intros w.
  - split; [reflexivity | apply only_updates_refl].
  - cbn [forward_lines]. unfold bind.
    destruct (forward_line_cases py_repr line w) as [Hq Hu].
    destruct (forward_line py_repr line w) as [[u|e] w1]; cbn [snd] in *.
    + destruct (IH w1) as [Hq1 Hu1]. split.
      * intros Ha. specialize (Hq Ha). subst w1. now apply Hq1.
      * now apply (only_updates_trans w w1).
    + split; assumption.
Qed.

(** X4.  Whatever the watched files hold, a tick of either watcher
    leaves the conversation id and the transcript alone and adds to the
    wire nothing but contextual updates that carry the id of the active
    conversation; while no conversation is active it changes nothing at
    all. *)
Theorem watchers_send_only_contextual_updates :
  forall py_repr cfg path fs,
    (forall st w, only_updates w (snd (watch_memory_tick cfg path fs st w))) /\
    (forall offset w,
       only_updates w (snd (watch_queue_tick py_repr path fs offset w))) /\
    (forall st w,
       truthy (active_conversation_id w) = false ->
       snd (watch_memory_tick cfg path fs st w) = w) /\
    (forall offset w,
       truthy (active_conversation_id w) = false ->
       snd (watch_queue_tick py_repr path fs offset w) = w).
Proof.
  intros py_repr cfg path fs.
  assert (Q : forall offset w,
            (truthy (active_conversation_id w) = false ->
             snd (watch_queue_tick py_repr path fs offset w) = w) /\
            only_updates w (snd (watch_queue_tick py_repr path fs offset w))).
  { intros offset w. unfold watch_queue_tick.
    destruct (fs path) as [f|]; [|split; [reflexivity | apply only_updates_refl]].
    destruct (String.length (content f) <=? offset)%nat;
      [split; [reflexivity | apply only_updates_refl]|].
    pose proof (forward_lines_cases py_repr
                  (split_lines (drop offset (content f))) w) as H.
    now destruct (forward_lines py_repr _ w) as [[u|e] w1]. }
  assert (S : forall st w,
            (truthy (active_conversation_id w) = false ->
             snd (watch_memory_tick cfg path fs st w) = w) /\
            only_updates w (snd (watch_memory_tick cfg path fs st w))).
  { intros st w. unfold watch_memory_tick.
    destruct (fs path) as [f|]; [|split; [reflexivity | apply only_updates_refl]].
    destruct (mtime f <=? last_mtime st)%Z;
      [split; [reflexivity | apply only_updates_refl]|].
    destruct (load_memory_buffer cfg fs) as [mem|e];
      [|split; [reflexivity | apply only_updates_refl]].
    destruct (to_string_map_of mem) as [curr|e];
      [|split; [reflexivity | apply only_updates_refl]].
    destruct (changed_keys curr (last_vars st)) as [|k ks] eqn:C;
      [split; [reflexivity | apply only_updates_refl]|].
    destruct (truthy (active_conversation_id w)) eqn:Ha; cbn [negb];
      [|split; [reflexivity | apply only_updates_refl]].
    pose proof (only_updates_send (summarize (k :: ks)) w) as H.
    split; [discriminate|].
    now destruct (ws_send _ w) as [[u|e] w1]. }
  split; [intros st w; apply S|].
  split; [intros offset w; apply Q|].
  split; [intros st w; apply S | intros offset w; apply Q].
Qed.

(** ** The receive loop *)

Section ReceiveLoopMore.

Variable runtime_text : exn -> string.
Variable cfg : dict json.
Variable fs : filesystem.

Lemma handle_message_other_type (m : dict json) (w : World) :
  existsb (is_str (get_or m "type" JNull)) handled_types = false ->
  handle_message runtime_text cfg fs (JDict m) w = (Ok tt, w).
Proof.
  intros H. cbn [existsb handled_types] in H.
  repeat (apply orb_false_iff in H; destruct H as [? H]).
  unfold handle_message, bind, lift. cbn [attr_get].
  repeat match goal with E : is_str _ _ = false |- _ => rewrite E; clear E end.
  now destruct (is_str (get_or m "type" JNull) "audio"),
    (is_str (get_or m "type" JNull) "interruption").
Qed.

Lemma receive_passed_over (raw : string) (w : World) :
  passed_over raw = true -> receive runtime_text cfg fs raw w = (Ok tt, w).
Proof.
  unfold passed_over, receive. destruct (loads raw) as [[| | | | |m]|]; try discriminate.
  intros H. apply negb_true_iff in H. now apply handle_message_other_type.
Qed.

(** X5.  Frames that hold an object whose [type] is none of [ping],
    [conversation_initiation_metadata], [user_transcript],
    [agent_response] and [client_tool_call], or that has no [type],
    change nothing wherever they occur among the frames of a session:
    the loop does what it does on the other frames alone.  Audio and
    interruption events are among them. *)
Theorem receive_loop_passes_over_other_types :
  forall (frames : list string) (w : World),
    receive_loop runtime_text cfg fs frames w =
    receive_loop runtime_text cfg fs
      (filter (fun raw => negb (passed_over raw)) frames) w.
Proof.
  induction frames as [|raw rest IH]; intros w; [reflexivity|].
  cbn [filter]. destruct (passed_over raw) eqn:P; cbn [negb].
  - cbn [receive_loop]. unfold bind at 1. rewrite (receive_passed_over raw w P).
    apply IH.
  - cbn [receive_loop]. unfold bind.
    destruct (receive runtime_text cfg fs raw w) as [[u|e] w1]; [apply IH | reflexivity].
Qed.

Lemma handle_message_bad_event (m : dict json) (mtype key : string) (w : World) :
  get_or m "type" JNull = JStr mtype -> event_key mtype = Some key ->
  is_dict (get_or m key (JDict [])) = false ->
  handle_message runtime_text cfg fs (JDict m) w =
  (Raise (AttributeError (get_or m key (JDict [])) "get"), w).
Proof.
  intros Ht Hk Hd. unfold event_key in Hk. cbn [dict_get] in Hk.
  unfold handle_message. unfold bind at 1. unfold lift at 1. cbn [attr_get].
  rewrite Ht.
  repeat match type of Hk with
  | (if (?a =? mtype)%string then _ else _) = _ =>
      destruct (String.eqb_spec a mtype) as [<-|_];
        [ injection Hk as <-;
          cbn [is_str py_eq String.eqb Ascii.eqb Bool.eqb];
          unfold bind, lift; cbn [attr_get];
          destruct (get_or m _ (JDict [])); try discriminate; reflexivity |]
  end.
  discriminate.
Qed.

Lemma handle_message_bad_tool_name (m call : dict json) (w : World) :
  get_or m "type" JNull = JStr "client_tool_call" ->
  get_or m "client_tool_call" (JDict []) = JDict call ->
  truthy (get_or call "tool_name" JNull) = true ->
  type_name (get_or call "tool_name" JNull) <> "str" ->
  handle_message runtime_text cfg fs (JDict m) w =
  (Raise (AttributeError (get_or call "tool_name" JNull) "strip"), w).
Proof.
  intros Ht Hc Hn Hs.
  unfold handle_message. unfold bind at 1. unfold lift at 1. cbn [attr_get].
  rewrite Ht. cbn [is_str py_eq String.eqb Ascii.eqb Bool.eqb].
  unfold bind at 1. unfold lift at 1. cbn [attr_get]. rewrite Hc.
  unfold bind at 1. unfold lift at 1. cbn [attr_get].
  unfold bind at 1. unfold lift at 1. unfold stripped_name, py_or. rewrite Hn.
  destruct (get_or call "tool_name" JNull); try reflexivity. now elim Hs.
Qed.

(** X6.  A malformed frame ends the receive loop without any reply:
    the exception it causes is caught nowhere in the loop, so the frames
    after it are not handled.  This happens for a frame that holds a
    JSON value other than an object ([null], a number, a list), for a
    message of a handled type whose event is present but is no object
    (for instance [null]), and for a tool call whose [tool_name] is
    neither a string nor a value that Python holds false. *)
Theorem malformed_frame_ends_receive_loop :
  forall (raw : string) (rest : list string) (msg : json) (w : World),
    loads raw = Some msg ->
    (is_dict msg = false ->
     receive_loop runtime_text cfg fs (raw :: rest) w =
     (Raise (AttributeError msg "get"), w)) /\
    (forall m mtype key,
       msg = JDict m -> get_or m "type" JNull = JStr mtype ->
       event_key mtype = Some key ->
       is_dict (get_or m key (JDict [])) = false ->
       receive_loop runtime_text cfg fs (raw :: rest) w =
       (Raise (AttributeError (get_or m key (JDict [])) "get"), w)) /\
    (forall m call,
       msg = JDict m -> get_or m "type" JNull = JStr "client_tool_call" ->
       get_or m "client_tool_call" (JDict []) = JDict call ->
       truthy (get_or call "tool_name" JNull) = true ->
       type_name (get_or call "tool_name" JNull) <> "str" ->
       receive_loop runtime_text cfg fs (raw :: rest) w =
       (Raise (AttributeError (get_or call "tool_name" JNull) "strip"), w)).
Proof.
  intros raw rest msg w Hl.
  assert (E : forall e,
            handle_message runtime_text cfg fs msg w = (Raise e, w) ->
            receive_loop runtime_text cfg fs (raw :: rest) w = (Raise e, w)).
  { intros e H. cbn [receive_loop]. unfold bind, receive. now rewrite Hl, H. }
  split; [|split].
  - intros Hd. apply E. destruct msg; try discriminate; reflexivity.
  - intros m mtype key -> Ht Hk Hd. apply E.
    now apply (handle_message_bad_event m mtype key).
  - intros m call -> Ht Hc Hn Hs. apply E.
    now apply handle_message_bad_tool_name.
Qed.

(** *** How much an iteration can do *)

Lemma effects_refl (n : nat) (w : World) : effects n w w.
Proof.
  exists [], []. rewrite !List.app_nil_r. cbn. repeat split; [lia | trivial].
Qed.

Lemma effects_trans (n m : nat) (w1 w2 w3 : World) :
  effects n w1 w2 -> effects m w2 w3 -> effects (n + m) w1 w3.
Proof.
  intros (s1 & t1 & W1 & T1 & L1 & A1) (s2 & t2 & W2 & T2 & L2 & A2).
  exists (s1 ++ s2)%list, (t1 ++ t2)%list.
  rewrite W2, W1, T2, T1, !List.app_assoc, !length_app.
  repeat split; [lia | auto].
Qed.

Lemma effects_ret {A} (a : A) (n : nat) : steps (effects n) (ret a).
Proof. intros w. apply effects_refl. Qed.

Lemma effects_lift_bind {A B} (r : result A) (k : A -> M B) (n : nat) :
  (forall a, steps (effects n) (k a)) -> steps (effects n) (bind (lift r) k).
Proof.
  intros H w. unfold bind, lift. destruct r as [a|e]; [apply H | apply effects_refl].
Qed.

Lemma effects_ws_send (p : json) : steps (effects 1) (ws_send p).
Proof.
  intros w. unfold ws_send. destruct (faults w) as [|[|] rest]; cbn [snd].
  - exists [p], []. cbn. rewrite List.app_nil_r. repeat split; [lia | trivial].
  - exists [], []. cbn. rewrite !List.app_nil_r. repeat split; [lia | trivial].
  - exists [p], []. cbn. rewrite List.app_nil_r. repeat split; [lia | trivial].
Qed.

Lemma effects_append_turn (t : json) : steps (effects 1) (append_turn t).
Proof.
  intros w. exists [], [t]. cbn. rewrite List.app_nil_r. repeat split; [lia | trivial].
Qed.

Lemma effects_set_active (v : json) :
  steps (effects 1) (if truthy v then set_active v else ret tt).
Proof.
  intros w. destruct (truthy v) eqn:T; [|apply effects_refl].
  exists [], []. cbn. rewrite !List.app_nil_r. repeat split; [lia | trivial].
Qed.

Lemma effects_answer (r : list json -> result json) (ok : json -> json)
    (err : exn -> json) :
  steps (effects 1)
    (try_except
       (bind get_transcript (fun history =>
        bind (lift (r history)) (fun result => ws_send (ok result))))
       (fun e => ws_send (err e))).
Proof.
  intros w. unfold try_except, bind, get_transcript, lift.
  destruct (r (transcript w)) as [v|e].
  - pose proof (effects_ws_send (ok v) w) as H1.
    unfold ws_send in *. destruct (faults w) as [|[|] rest]; cbn in *; try exact H1.
    destruct rest as [|[|] rest']; cbn.
    + exists [err ConnectionClosed], []. cbn. rewrite List.app_nil_r.
      repeat split; [lia | trivial].
    + exists [], []. cbn. rewrite !List.app_nil_r. repeat split; [lia | trivial].
    + exists [err ConnectionClosed], []. cbn. rewrite List.app_nil_r.
      repeat split; [lia | trivial].
  - apply effects_ws_send.
Qed.

Lemma handle_message_effects (msg : json) :
  steps (effects 1) (handle_message runtime_text cfg fs msg).
Proof.
  unfold handle_message.
  repeat first
    [ apply effects_ret | apply effects_ws_send | apply effects_append_turn
    | apply effects_set_active
    | apply (effects_answer (fun history => run_tool cfg fs history _))
    | apply effects_lift_bind; intros ?
    | match goal with
      | |- steps _ (if ?b then _ else _) => destruct b
      end ].
Qed.

(** X7.  The receive loop only ever adds: an iteration leaves the wire
    and the transcript as they were or puts one message at the end of
    the wire or one turn at the end of the transcript, never both and
    never more, so [n] frames add at most [n] items in all; the
    transcript is never trimmed.  A conversation id that is set is never
    cleared: it can only be replaced by another id that Python holds
    true. *)
Theorem receive_loop_only_adds :
  forall (frames : list string) (w : World),
    (forall raw, effects 1 w (snd (receive runtime_text cfg fs raw w))) /\
    effects (List.length frames) w (snd (receive_loop runtime_text cfg fs frames w)).
Proof.
  assert (R : forall raw w, effects 1 w (snd (receive runtime_text cfg fs raw w))).
  { intros raw w. unfold receive.
    destruct (loads raw); [apply handle_message_effects | apply effects_refl]. }
  intros frames w. split; [intros raw; apply R|].
  revert w. induction frames as [|raw rest IH]; intros w; [apply effects_refl|].
  cbn [receive_loop List.length]. unfold bind. specialize (R raw w).
  destruct (receive runtime_text cfg fs raw w) as [[u|e] w1]; cbn [snd] in *.
  - change (S (List.length rest)) with (1 + List.length rest).
    now apply (effects_trans 1 _ w w1).
  - destruct R as (s & t & W & T & L & A). exists s, t. repeat split; auto. lia.
Qed.

End ReceiveLoopMore.

Lemma malformed_frame_ends_receive_loop_witness :
  receive_loop Sample.runtime_text Sample.cfg Sample.fs
    ["null"; dumps (JDict Sample.ping_message)] Sample.active_world =
  (Raise (AttributeError JNull "get"), Sample.active_world).
Proof.
  exact (proj1 (malformed_frame_ends_receive_loop Sample.runtime_text Sample.cfg
                  Sample.fs "null" [dumps (JDict Sample.ping_message)] JNull
                  Sample.active_world eq_refl) eq_refl).
Defined.

(** ** The tools *)




(** ** Stringified variables and templates *)

(** X9.  [to_string_map] keeps the keys of a snapshot in their order,
    and stringifying its own result again, as happens to the result of
    [getMemoryBuffer] when it is read back as variables, changes
    nothing. *)
Theorem stringified_snapshot_is_stable :
  forall (d : dict json),
    distinct (keys d) = true ->
    keys (to_string_map d) = keys d /\
    to_string_map_of (json_of_vars (to_string_map d)) = Ok (to_string_map d).
Proof.
  intros d Hd.
  assert (K : keys (to_string_map d) = keys d).
  { rewrite (to_string_map_distinct d Hd). unfold keys. rewrite map_map.
    now apply map_ext. }
  split; [exact K|].
  unfold json_of_vars, to_string_map_of. f_equal.
  rewrite to_string_map_distinct.
  - rewrite map_map. cbn [fst snd stringify].
    rewrite <- (map_id (to_string_map d)) at 2. apply map_ext. now intros [k v].
  - assert (K' : keys (map (fun kv => (fst kv, JStr (snd kv))) (to_string_map d)) =
                 keys d).
    { rewrite <- K. unfold keys. rewrite map_map. now apply map_ext. }
    now rewrite K'.
Qed.

Lemma stringified_snapshot_is_stable_witness :
  let d := [("n", JInt 5); ("none", JNull); ("l", JList [JInt 1; JBool true])] in
  keys (to_string_map d) = ["n"; "none"; "l"] /\
  to_string_map_of (json_of_vars (to_string_map d)) =
  Ok [("n", "5"); ("none", ""); ("l", "[1, true]")].
Proof.
  exact (stringified_snapshot_is_stable
           [("n", JInt 5); ("none", JNull); ("l", JList [JInt 1; JBool true])]
           eq_refl).
Defined.






(** ** Configuration from the environment *)

Lemma dict_get_set {V} (d : dict V) (k k' : string) (v : V) :
  dict_get (dict_set d k v) k' =
  if (k =? k')%string then Some v else dict_get d k'.
Proof.
  induction d as [|[k0 v0] d IH]; cbn [dict_set dict_get].
  - reflexivity.
  - destruct (String.eqb_spec k0 k) as [->|ne]; cbn [dict_get].
    + now destruct (k =? k')%string.
    + rewrite IH. destruct (String.eqb_spec k0 k') as [->|ne']; [|reflexivity].
      destruct (String.eqb_spec k k') as [->|_]; [now elim ne | reflexivity].
Qed.

Lemma dict_get_not_in {V} (d : dict V) (k : string) :
  ~ In k (keys d) -> dict_get d k = None.
Proof.
  intros H. destruct (dict_get d k) as [v|] eqn:E; [|reflexivity].
  elim H. clear H. induction d as [|[k0 v0] d IH]; [discriminate|].
  cbn [dict_get] in E. cbn [keys map fst].
  destruct (String.eqb_spec k0 k) as [->|_]; [now left | right; now apply IH].
Qed.

Lemma env_fold_lookup (env : environ) (names : list (string * string))
    (cfg : dict json) (k : string) :
  distinct (keys names) = true ->
  dict_get
    (fold_left
       (fun resolved kv =>
          match env (snd kv) with
          | Some v => dict_set resolved (fst kv) (JStr v)
          | None => resolved
          end)
       names cfg) k =
  match dict_get names k with
  | Some name =>
      match env name with
      | Some v => Some (JStr v)
      | None => dict_get cfg k
      end
  | None => dict_get cfg k
  end.
Proof.
  revert cfg. induction names as [|[key name] names IH]; intros cfg Hd;
    [reflexivity|].
  cbn [keys map fst] in Hd. apply distinct_cons in Hd. destruct Hd as [Hk Hd].
  cbn [fold_left fst snd dict_get]. rewrite (IH _ Hd).
  destruct (String.eqb_spec key k) as [->|ne].
  - rewrite (dict_get_not_in names k Hk).
    destruct (env name) as [v|]; [|reflexivity].
    now rewrite dict_get_set, String.eqb_refl.
  - assert (E : dict_get
                  match env name with
                  | Some v => dict_set cfg key (JStr v)
                  | None => cfg
                  end k = dict_get cfg k).
    { destruct (env name) as [v|]; [|reflexivity].
      rewrite dict_get_set. apply String.eqb_neq in ne. now rewrite ne. }
    now rewrite E.
Qed.

Lemma apply_env_overrides_fold (cfg : dict json) (env : environ) :
  apply_env_overrides cfg env =
  fold_left
    (fun resolved kv =>
       match env (snd kv) with
       | Some v => dict_set resolved (fst kv) (JStr v)
       | None => resolved
       end)
    (ENVIRONMENT_OVERRIDES ++ [("auth_mode", "ELEVENLABS_AUTH_MODE")])%list cfg.
Proof. unfold apply_env_overrides. now rewrite fold_left_app. Qed.

Lemma env_overrides_get (cfg : dict json) (env : environ) (k : string) :
  dict_get (apply_env_overrides cfg env) k =
  match env_var_of k with
  | Some name =>
      match env name with
      | Some v => Some (JStr v)
      | None => dict_get cfg k
      end
  | None => dict_get cfg k
  end.
Proof.
  rewrite apply_env_overrides_fold. now apply env_fold_lookup.
Qed.

(** X11.  The configuration the SDK runner works with is the one of
    [config.json] except at seven keys: [elevenlabs_api_key],
    [agent_id], [signed_url], [voice_id], [language], [user_id] and
    [auth_mode].  At each of them the value of its environment variable
    wins whenever the variable is set, even to the empty string; every
    other key, and each of the seven whose variable is not set, reads as
    in the file. *)
Theorem env_overrides_lookup :
  forall (cfg : dict json) (env : environ) (k : string),
    dict_get (apply_env_overrides cfg env) k =
    match env_var_of k with
    | Some name =>
        match env name with
        | Some v => Some (JStr v)
        | None => dict_get cfg k
        end
    | None => dict_get cfg k
    end /\
    (is_some (env_var_of k) =
     existsb (String.eqb k)
       ["elevenlabs_api_key"; "agent_id"; "signed_url"; "voice_id"; "language";
        "user_id"; "auth_mode"]).
Proof.
  intros cfg env k. split; [apply env_overrides_get|].
  unfold env_var_of. cbn [ENVIRONMENT_OVERRIDES List.app dict_get existsb].
  repeat match goal with
  | |- context [(?a =? k)%string] =>
      rewrite (String.eqb_sym a k);
      destruct (String.eqb_spec k a) as [->|_]; [reflexivity|]
  end.
  reflexivity.
Qed.

(** ** The URL of the session *)

Section NetworkFacts.

Variable runtime_text : exn -> string.
Variable get_signed_url : string -> json -> result json.

Lemma strip_truthy (s : string) : s <> "" -> truthy (JStr s) = true.
Proof. intros H. cbn [truthy]. apply String.eqb_neq in H. now rewrite H. Qed.


(** X13.  When the values of [signed_url], [agent_id] and [auth_mode]
    in the configuration are strings or are values that Python holds
    false, [resolve_wss_url] ends in one of two ways only: it returns an
    address that Python holds true, or it exits with a message.  No
    error of the request for a signed URL escapes as another exception:
    an exception of the request, a body that is no object and a body
    without a [signed_url] all end in the exit whose message starts with
    [Failed to fetch signed URL: ]. *)
Theorem resolve_wss_url_returns_or_exits :
  forall (cfg : dict json) (api_key : json),
    (forall k,
       In k ["signed_url"; "agent_id"; "auth_mode"] ->
       truthy (get_or cfg k JNull) = false \/
       type_name (get_or cfg k JNull) = "str") ->
    (exists u,
       resolve_wss_url runtime_text get_signed_url cfg api_key = Value u /\
       truthy u = true) \/
    (exists msg,
       resolve_wss_url runtime_text get_signed_url cfg api_key =
       Fail (SystemExit msg)).
Proof.
  intros cfg api_key H.
  assert (S : forall k, In k ["signed_url"; "agent_id"; "auth_mode"] ->
              exists s, stripped_name (get_or cfg k JNull) = Ok s).
  { intros k Hk. unfold stripped_name, py_or.
    destruct (H k Hk) as [F|T]; [rewrite F; now exists (strip "")|].
    destruct (get_or cfg k JNull); try discriminate.
    destruct (truthy (JStr s)); eauto. }
  assert (L : exists m,
            lowered (py_or (get_or cfg "auth_mode" JNull) (JStr "auto")) = Ok m).
  { unfold py_or.
    destruct (H "auth_mode") as [F|T]; [cbn; tauto | rewrite F; now exists (lower "auto") |].
    destruct (get_or cfg "auth_mode" JNull); try discriminate.
    destruct (truthy (JStr s)); cbn [lowered]; eauto. }
  destruct (S "signed_url") as [s Hs]; [cbn; tauto|].
  destruct (S "agent_id") as [a Ha]; [cbn; tauto|].
  destruct L as [m Hm].
  unfold resolve_wss_url. rewrite Hs.
  destruct (String.eqb_spec s "") as [->|ne]; cbn [negb].
  2:{ left. exists (JStr s). split; [reflexivity | now apply strip_truthy]. }
  rewrite Ha, Hm.
  destruct (m =? "public")%string.
  - destruct (String.eqb_spec a "") as [->|na]; [right; eauto|].
    left. eexists. split; [reflexivity|]. reflexivity.
  - destruct (String.eqb_spec a "") as [->|na]; [right; eauto|].
    destruct (truthy api_key); cbn [negb]; [|right; eauto].
    destruct (get_signed_url a api_key) as [data|e]; [|right; unfold fetch_failed; eauto].
    destruct (attr_get (py_or data (JDict [])) "signed_url" JNull) as [signed|e];
      [|right; unfold fetch_failed; eauto].
    destruct (truthy signed) eqn:T; [left; eauto | right; unfold fetch_failed; eauto].
Qed.

End NetworkFacts.


Lemma resolve_wss_url_returns_or_exits_witness :
  let cfg := [("agent_id", JStr "agent-1")] in
  let answer (agent : string) (key : json) : result json := Ok (JList [JInt 1]) in
  (exists u,
     resolve_wss_url Sample.runtime_text answer cfg (JStr "key") = Value u /\
     truthy u = true) \/
  (exists msg,
     resolve_wss_url Sample.runtime_text answer cfg (JStr "key") =
     Fail (SystemExit msg)).
Proof.
  cbv zeta.
  apply (resolve_wss_url_returns_or_exits Sample.runtime_text
           (fun _ _ => Ok (JList [JInt 1])) [("agent_id", JStr "agent-1")]
           (JStr "key")).
  intros k [<-|[<-|[<-|[]]]]; vm_compute; tauto.
Defined.

(** ** The initiation payload, and where the two runners part *)

Lemma env_overrides_get_or (cfg : dict json) (env : environ) (k : string)
    (default : json) :
  env_var_of k = None ->
  get_or (apply_env_overrides cfg env) k default = get_or cfg k default.
Proof.
  intros H. unfold get_or. now rewrite env_overrides_get, H.
Qed.

Lemma get_or_some {V} (d : dict V) (k : string) (default v : V) :
  get_or d k default = v -> v <> default -> dict_get d k = Some v.
Proof.
  unfold get_or. destruct (dict_get d k) as [x|]; [now intros -> | congruence].
Qed.

Lemma init_message_payload (cfg : dict json) (fs : filesystem) (payload : json) :
  init_message cfg fs = Value payload ->
  exists mem vars system_prompt,
    load_memory_buffer cfg fs = Ok mem /\ to_string_map_of mem = Ok vars /\
    payload = build_init_client_data cfg system_prompt vars /\
    (truthy (get_or cfg "prompt_override" (JBool true)) = false ->
     system_prompt = "").
Proof.
  unfold init_message.
  destruct (load_memory_buffer cfg fs) as [mem|e] eqn:L; [|discriminate].
  destruct (to_string_map_of mem) as [vars|e] eqn:T; [|discriminate].
  destruct (truthy (get_or cfg "prompt_override" (JBool true))).
  - destruct (read_text fs _) as [text|f]; [|discriminate].
    intros [= <-]. exists mem, vars. eexists.
    split; [reflexivity|]. split; [exact T|]. split; [reflexivity|].
    discriminate.
  - cbn [String.eqb]. intros [= <-]. exists mem, vars, "".
    split; [reflexivity|]. split; [exact T|]. split; reflexivity.
Qed.

(** X14.  The two runners disagree on a memory file that is configured
    but does not exist.  The WebSocket runner goes on with no variables:
    [load_memory_buffer] returns the empty dictionary, the initiation
    payload carries empty [dynamic_variables], and [getMemoryBuffer]
    answers with the empty dictionary, not with an error.  The SDK
    runner stops with the error of opening the file. *)
Theorem missing_memory_file_stops_only_the_sdk_runner :
  forall (cfg src : dict json) (fs : filesystem) (p : string),
    get_or cfg "memory_buffer_source" (JDict []) = JDict src ->
    get_or src "path" JNull = JStr p -> p <> "" -> fs p = None ->
    load_memory_buffer cfg fs = Ok (JDict []) /\
    (forall history,
       run_tool cfg fs history "getMemoryBuffer" = Ok (JDict [])) /\
    (forall payload,
       init_message cfg fs = Value payload ->
       path_get payload ["dynamic_variables"] = Some (JDict [])) /\
    (forall env, setup cfg fs env = Fail (FileNotFound p)).
Proof.
  intros cfg src fs p Hs Hp Hne Hf.
  assert (L : load_memory_buffer cfg fs = Ok (JDict [])).
  { unfold load_memory_buffer. rewrite Hs. cbn [attr_get]. rewrite Hp.
    rewrite (strip_truthy p Hne). cbn [negb path_of]. now rewrite Hf. }
  split; [exact L|]. split; [|split].
  - intros history. unfold run_tool. cbn [String.eqb Ascii.eqb Bool.eqb].
    now rewrite L.
  - intros payload H. apply init_message_payload in H.
    destruct H as (mem & vars & sp & Hl & Ht & -> & _).
    rewrite L in Hl. injection Hl as <-. cbn in Ht. injection Ht as <-.
    reflexivity.
  - intros env. unfold setup.
    rewrite env_overrides_get_or by reflexivity. rewrite Hs. cbn [attr_get].
    assert (G : get_or src "path" (JStr "buffer/memory_buffer.json") = JStr p).
    { unfold get_or. now rewrite (get_or_some src "path" JNull (JStr p) Hp). }
    rewrite G. cbn [load_json]. now rewrite Hf.
Qed.

Lemma missing_memory_file_stops_only_the_sdk_runner_witness :
  let nothing : filesystem := fun _ => None in
  run_tool Sample.cfg nothing [] "getMemoryBuffer" = Ok (JDict []) /\
  setup Sample.cfg nothing (fun _ => None) = Fail (FileNotFound Sample.memory_path).
Proof.
  cbv zeta.
  pose proof (missing_memory_file_stops_only_the_sdk_runner Sample.cfg
                [("path", JStr Sample.memory_path)] (fun _ => None)
                Sample.memory_path eq_refl eq_refl) as H.
  destruct H as (_ & H2 & _ & H4); [discriminate | reflexivity|].
  split; [apply H2 | apply H4].
Defined.

Lemma setup_override (config : dict json) (fs : filesystem) (env : environ)
    (s : session_setup) :
  setup config fs env = Value s ->
  exists system_prompt,
    conversation_config_override s = config_override system_prompt /\
    (truthy (get_or config "prompt_override" (JBool true)) = false ->
     system_prompt = "") /\
    (forall t,
       get_or config "responder_template_path" (JStr "responder.md") = JStr t ->
       fs t = None -> system_prompt = "").
Proof.
  unfold setup.
  rewrite !(env_overrides_get_or config env "prompt_override") by reflexivity.
  rewrite !(env_overrides_get_or config env "responder_template_path") by reflexivity.
  destruct (attr_get _ "path" _) as [mem_path|e]; [|discriminate].
  destruct (load_json fs mem_path) as [mem|f]; [|discriminate].
  destruct (sdk_string_map_of mem) as [vars|e]; [|discriminate].
  destruct (truthy (get_or config "prompt_override" (JBool true))).
  - destruct (render_template fs _ vars) as [sp|f] eqn:R; [|discriminate].
    destruct (negb (truthy (py_or _ _))); [discriminate|].
    destruct (negb (truthy (get_or _ "agent_id" JNull))); [discriminate|].
    intros [= <-]. exists sp. cbn [conversation_config_override].
    split; [reflexivity|]. split; [discriminate|].
    intros t Ht Hf. rewrite Ht in R. unfold render_template in R.
    destruct (negb (truthy (JStr t))); [congruence|].
    injection R as <-. unfold SdkRunner.render_prompt. rewrite Hf.
    now destruct (t =? "")%string.
  - destruct (negb (truthy (py_or _ _))); [discriminate|].
    destruct (negb (truthy (get_or _ "agent_id" JNull))); [discriminate|].
    intros [= <-]. exists "". now repeat split.
Qed.

(** X15.  With [prompt_override] switched off the two runners send
    different things.  The WebSocket runner still overrides the agent's
    prompt, with the empty string, and does so without reading the
    template; the SDK runner sends no configuration override at all. *)
Theorem prompt_override_off_still_overrides_on_websocket :
  forall (cfg : dict json),
    truthy (get_or cfg "prompt_override" (JBool true)) = false ->
    (forall fs payload,
       init_message cfg fs = Value payload ->
       path_get payload ["conversation_config_override"; "agent"; "prompt"] =
       Some (JDict [("prompt", JStr "")])) /\
    (forall fs mem vars,
       load_memory_buffer cfg fs = Ok mem -> to_string_map_of mem = Ok vars ->
       init_message cfg fs = Value (build_init_client_data cfg "" vars)) /\
    (forall fs env s,
       setup cfg fs env = Value s -> conversation_config_override s = JNull).
Proof.
  intros cfg Hoff. split; [|split].
  - intros fs payload H. apply init_message_payload in H.
    destruct H as (mem & vars & sp & _ & _ & -> & Hsp).
    now rewrite (Hsp Hoff).
  - intros fs mem vars Hl Ht. unfold init_message. now rewrite Hl, Ht, Hoff.
  - intros fs env s H. apply setup_override in H.
    destruct H as (sp & -> & Hsp & _). now rewrite (Hsp Hoff).
Qed.

Lemma prompt_override_off_still_overrides_on_websocket_witness :
  let cfg := ("prompt_override", JBool false) :: ("agent_id", JStr "a") ::
             ("elevenlabs_api_key", JStr "k") :: Sample.cfg in
  init_message cfg Sample.fs =
  Value (build_init_client_data cfg ""
           (map (fun k => (k, "1"))
              ["a"; "b"; "c"; "d"; "e"; "f"; "g"; "h"; "i"; "j"; "k"; "l"])) /\
  option_map conversation_config_override
    match setup cfg Sample.fs (fun _ => None) with
    | Value s => Some s
    | Fail _ => None
    end = Some JNull.
Proof.
  cbv zeta.
  pose proof (prompt_override_off_still_overrides_on_websocket
                (("prompt_override", JBool false) :: ("agent_id", JStr "a") ::
                 ("elevenlabs_api_key", JStr "k") :: Sample.cfg) eq_refl)
    as (_ & H2 & H3).
  split.
  - apply (H2 Sample.fs Sample.snapshot); vm_compute; reflexivity.
  - specialize (H3 Sample.fs (fun _ => None)).
    destruct (setup _ Sample.fs (fun _ => None)) as [s|f] eqn:E.
    + cbn [option_map]. f_equal. now apply H3.
    + vm_compute in E. discriminate.
Defined.

(** X16.  The two runners disagree on a template file that does not
    exist while [prompt_override] is on.  The WebSocket runner stops
    with the error of opening the file; the SDK runner takes the prompt
    to be empty and starts the session without a configuration
    override. *)
Theorem missing_template_stops_only_the_websocket_runner :
  forall (cfg : dict json) (fs : filesystem) (t : string),
    truthy (get_or cfg "prompt_override" (JBool true)) = true ->
    get_or cfg "responder_template_path" (JStr "responder.md") = JStr t ->
    fs t = None ->
    (forall mem vars,
       load_memory_buffer cfg fs = Ok mem -> to_string_map_of mem = Ok vars ->
       init_message cfg fs = Fail (FileNotFound t)) /\
    (forall payload, init_message cfg fs <> Value payload) /\
    (forall env s,
       setup cfg fs env = Value s -> conversation_config_override s = JNull).
Proof.
  intros cfg fs t Hon Ht Hf. split; [|split].
  - intros mem vars Hl Hv. unfold init_message.
    rewrite Hl, Hv, Hon, Ht. cbn [read_text]. now rewrite Hf.
  - intros payload. unfold init_message.
    destruct (load_memory_buffer cfg fs) as [mem|e]; [|discriminate].
    destruct (to_string_map_of mem) as [vars|e]; [|discriminate].
    rewrite Hon, Ht. cbn [read_text]. rewrite Hf. discriminate.
  - intros env s H. apply setup_override in H.
    destruct H as (sp & -> & _ & Hsp). now rewrite (Hsp t Ht Hf).
Qed.

Lemma missing_template_stops_only_the_websocket_runner_witness :
  let cfg := ("agent_id", JStr "a") :: ("elevenlabs_api_key", JStr "k") ::
             Sample.cfg in
  init_message cfg Sample.fs = Fail (FileNotFound "responder.md") /\
  option_map conversation_config_override
    match setup cfg Sample.fs (fun _ => None) with
    | Value s => Some s
    | Fail _ => None
    end = Some JNull.
Proof.
  cbv zeta.
  pose proof (missing_template_stops_only_the_websocket_runner
                (("agent_id", JStr "a") :: ("elevenlabs_api_key", JStr "k") ::
                 Sample.cfg) Sample.fs "responder.md" eq_refl eq_refl eq_refl)
    as (H1 & _ & H3).
  split.
  - eapply (H1 Sample.snapshot); vm_compute; reflexivity.
  - specialize (H3 (fun _ => None)).
    destruct (setup _ Sample.fs (fun _ => None)) as [s|f] eqn:E.
    + cbn [option_map]. f_equal. now apply H3.
    + vm_compute in E. discriminate.
Defined.

(** X17.  What the initiation payload of the WebSocket runner holds.
    The prompt override is always there, with the rendered prompt.  The
    language, the first message and the voice are overridden exactly
    when both the flag and the value in the configuration are values
    that Python holds true; a flag alone or a value alone adds nothing.
    The variables are the stringified snapshot, and a [user_id] that
    Python holds false, such as the empty string, is sent as [null]. *)
Theorem init_payload_overrides_are_gated :
  forall (cfg : dict json) (system_prompt : string) (dyn_vars : dict string),
    let payload := build_init_client_data cfg system_prompt dyn_vars in
    let get k := get_or cfg k JNull in
    let gated flag k :=
      if truthy (get flag) && truthy (get k) then Some (get k) else None in
    path_get payload ["conversation_config_override"; "agent"; "prompt"; "prompt"] =
      Some (JStr system_prompt) /\
    path_get payload ["conversation_config_override"; "agent"; "language"] =
      gated "override_language" "language" /\
    path_get payload ["conversation_config_override"; "agent"; "first_message"] =
      gated "override_first_message" "first_message" /\
    path_get payload ["conversation_config_override"; "tts"; "voice_id"] =
      gated "override_tts" "voice_id" /\
    path_get payload ["dynamic_variables"] = Some (json_of_vars dyn_vars) /\
    path_get payload ["user_id"] =
      Some (if truthy (get "user_id") then get "user_id" else JNull).
Proof.
  intros cfg sp vars. cbv zeta. unfold build_init_client_data, py_or.
  set (b1 := truthy (get_or cfg "override_language" JNull) &&
             truthy (get_or cfg "language" JNull)).
  set (b2 := truthy (get_or cfg "override_first_message" JNull) &&
             truthy (get_or cfg "first_message" JNull)).
  set (b3 := truthy (get_or cfg "override_tts" JNull) &&
             truthy (get_or cfg "voice_id" JNull)).
  destruct b1, b2, b3; repeat split; reflexivity.
Qed.

(** X18.  When the snapshot watcher starts, the variables it will
    compare with are the ones the runner has just sent as
    [dynamic_variables] and the ones [getMemoryBuffer] returns, as long
    as the files have not changed in between; and its first tick over
    unchanged files does nothing.  The first update it sends is
    therefore relative to what the agent was told at the start. *)
Theorem snapshot_watcher_starts_from_sent_variables :
  forall (cfg : dict json) (fs : filesystem) (path : string) (st : MemoryWatch),
    watch_memory_start cfg fs = Ok (Some (path, st)) ->
    (forall w, watch_memory_tick cfg path fs st w = (st, w)) /\
    (forall payload,
       init_message cfg fs = Value payload ->
       path_get payload ["dynamic_variables"] = Some (json_of_vars (last_vars st))) /\
    (forall history,
       run_tool cfg fs history "getMemoryBuffer" = Ok (json_of_vars (last_vars st))).
Proof.
  intros cfg fs path st H. unfold watch_memory_start in H.
  destruct (attr_get _ "path" JNull) as [p|e]; [|discriminate].
  destruct (negb (truthy p)); [discriminate|].
  destruct (py_int _) as [n|e]; [|discriminate].
  destruct (negb (truthy _)); [discriminate|].
  destruct (path_of p) as [path'|e]; [|discriminate].
  destruct (load_memory_buffer cfg fs) as [mem|e] eqn:L; [|discriminate].
  destruct (to_string_map_of mem) as [vars|e] eqn:T; [|discriminate].
  injection H as -> <-. cbn [last_vars]. split; [|split].
  - intros w. unfold watch_memory_tick.
    destruct (fs path) as [f|]; [|reflexivity].
    cbn [last_mtime]. now rewrite Z.leb_refl.
  - intros payload H. apply init_message_payload in H.
    destruct H as (mem' & vars' & sp & Hl & Ht & -> & _).
    rewrite L in Hl. injection Hl as <-. rewrite T in Ht. injection Ht as <-.
    reflexivity.
  - intros history. unfold run_tool. cbn [String.eqb Ascii.eqb Bool.eqb].
    now rewrite L, T.
Qed.

Lemma snapshot_watcher_starts_from_sent_variables_witness :
  let st :=
    mkMemoryWatch 1
      (map (fun k => (k, "1"))
         ["a"; "b"; "c"; "d"; "e"; "f"; "g"; "h"; "i"; "j"; "k"; "l"]) in
  watch_memory_tick Sample.cfg Sample.memory_path Sample.fs st Sample.active_world =
  (st, Sample.active_world) /\
  run_tool Sample.cfg Sample.fs [] "getMemoryBuffer" = Ok (json_of_vars (last_vars st)).
Proof.
  cbv zeta.
  pose proof (snapshot_watcher_starts_from_sent_variables Sample.cfg Sample.fs
                Sample.memory_path
                (mkMemoryWatch 1
                   (map (fun k => (k, "1"))
                      ["a"; "b"; "c"; "d"; "e"; "f"; "g"; "h"; "i"; "j"; "k"; "l"])))
    as H.
  destruct H as (H1 & _ & H3); [vm_compute; reflexivity|].
  split; [apply H1 | apply H3].
Defined.

(** ** A queue that holds a line the watcher cannot handle *)

Lemma split_lines_enqueued (recs : list (string * option string)) (tail : string) :
  split_lines (enqueued recs ++ tail) =
  (split_lines (enqueued recs) ++ split_lines tail)%list.
Proof.
  induction recs as [|[text conv] recs IH]; [reflexivity|].
  cbn [enqueued fold_right fst snd]. fold (enqueued recs).
  rewrite enqueue_line_record, !append_assoc. cbn [str1 append].
  rewrite !split_lines_line by apply one_line_dumps.
  cbn [List.app]. now rewrite IH.
Qed.

Lemma forward_lines_app py_repr (l1 l2 : list string) (w : World) :
  forward_lines py_repr (l1 ++ l2) w =
  match forward_lines py_repr l1 w with
  | (Ok _, w1) => forward_lines py_repr l2 w1
  | (Raise e, w1) => (Raise e, w1)
  end.
Proof.
  revert w. induction l1 as [|line l1 IH]; intros w; [reflexivity|].
  cbn [List.app forward_lines]. unfold bind.
  destruct (forward_line py_repr line w) as [[u|e] w1]; [apply IH | reflexivity].
Qed.

Lemma forward_line_non_object py_repr (line : string) (v : json) (w : World) :
  loads (strip line) = Some v -> is_dict v = false ->
  forward_line py_repr line w = (Raise (AttributeError v "get"), w).
Proof.
  intros Hl Hd. unfold forward_line.
  destruct (String.eqb_spec (strip line) "") as [E|_].
  - rewrite E in Hl. discriminate.
  - rewrite Hl. destruct v; try discriminate; reflexivity.
Qed.

Lemma poisoned_tick py_repr path fs f (old : string)
    (recs : list (string * option string)) (bad rest : string) (v : json)
    (w : World) :
  fs path = Some f ->
  content f = old ++ enqueued recs ++ bad ++ String newline rest ->
  one_line bad = true -> loads (strip bad) = Some v -> is_dict v = false ->
  faults w = [] ->
  watch_queue_tick py_repr path fs (String.length old) w =
  (String.length old,
   mkWorld (active_conversation_id w) (transcript w)
     (wire w ++ forwarded (active_conversation_id w) recs) []).
Proof.
  intros Hfs Hc Hone Hl Hd Hf. unfold watch_queue_tick. rewrite Hfs, Hc.
  destruct (Nat.leb_spec (String.length (old ++ enqueued recs ++ bad ++ String newline rest))
              (String.length old)) as [le|_].
  { rewrite !length_append in le. cbn [String.length] in le. lia. }
  rewrite drop_append, split_lines_enqueued, forward_lines_app.
  rewrite forward_lines_enqueued by exact Hf.
  rewrite split_lines_line by exact Hone.
  cbn [forward_lines]. unfold bind.
  now rewrite (forward_line_non_object py_repr bad v _ Hl Hd).
Qed.

(** X19.  A line of the queue that holds a JSON value other than an
    object stops every tick that reaches it, and the offset never moves
    past it: as long as the file stays as it is, each tick sends again
    all the applicable records enqueued between the offset and that
    line, so after [n] ticks on a socket that accepts every message each
    of them has been sent [n] times, and the lines after it are never
    read. *)
Theorem poisoned_queue_is_resent_on_every_tick :
  forall py_repr path fs f (old : string)
         (recs : list (string * option string)) (bad rest : string) (v : json)
         (n : nat) (w : World),
    fs path = Some f ->
    content f = old ++ enqueued recs ++ bad ++ String newline rest ->
    one_line bad = true -> loads (strip bad) = Some v -> is_dict v = false ->
    faults w = [] ->
    queue_ticks py_repr path fs n (String.length old) w =
    (String.length old,
     mkWorld (active_conversation_id w) (transcript w)
       (wire w ++ List.concat (repeat (forwarded (active_conversation_id w) recs) n))
       []).
Proof.
  intros py_repr path fs f old recs bad rest v n w Hfs Hc Hone Hl Hd.
  revert w. induction n as [|n IH]; intros w Hf.
  - cbn. rewrite List.app_nil_r. destruct w; cbn in *. now subst.
  - cbn [queue_ticks].
    rewrite (poisoned_tick py_repr path fs f old recs bad rest v w Hfs Hc Hone Hl Hd Hf).
    rewrite IH by reflexivity.
    cbn [active_conversation_id transcript wire repeat List.concat].
    now rewrite <- List.app_assoc.
Qed.

Lemma poisoned_queue_is_resent_on_every_tick_witness :
  let fs p :=
    if (p =? "buffer/updates.ndjson")%string
    then Some (mkFile 1 (enqueued [("hi", None)] ++ "5" ++ String newline
                           (enqueued [("later", None)])))
    else None in
  queue_ticks Sample.py_repr "buffer/updates.ndjson" fs 3 0 Sample.active_world =
  (0,
   mkWorld (JStr "S1") []
     [contextual_update "hi" (JStr "S1"); contextual_update "hi" (JStr "S1");
      contextual_update "hi" (JStr "S1")] []).
Proof.
  cbv zeta.
  exact (poisoned_queue_is_resent_on_every_tick Sample.py_repr
           "buffer/updates.ndjson"
           (fun p =>
              if (p =? "buffer/updates.ndjson")%string
              then Some (mkFile 1 (enqueued [("hi", None)] ++ "5" ++ String newline
                                     (enqueued [("later", None)])))
              else None)
           (mkFile 1 (enqueued [("hi", None)] ++ "5" ++ String newline
                        (enqueued [("later", None)])))
           "" [("hi", None)] "5" (enqueued [("later", None)]) (JInt 5) 3
           Sample.active_world eq_refl eq_refl eq_refl eq_refl eq_refl eq_refl).
Defined.

(** ** The memory file of the two runners *)

Lemma sdk_string_map_eq (v : json) :
  sdk_string_map_of v = to_string_map_of v.
Proof.
  destruct v; reflexivity.
Qed.

Lemma setup_variables (config : dict json) (fs : filesystem) (env : environ)
    (s : session_setup) :
  setup config fs env = Value s ->
  exists mem_path mem,
    attr_get (get_or config "memory_buffer_source" (JDict [])) "path"
      (JStr "buffer/memory_buffer.json") = Ok mem_path /\
    load_json fs mem_path = Value mem /\
    to_string_map_of mem = Ok (dynamic_variables s).
Proof.
  unfold setup.
  rewrite (env_overrides_get_or config env "memory_buffer_source") by reflexivity.
  destruct (attr_get _ "path" _) as [mem_path|e]; [|discriminate].
  destruct (load_json fs mem_path) as [mem|f] eqn:L; [|discriminate].
  destruct (sdk_string_map_of mem) as [vars|e] eqn:T; [|discriminate].
  destruct (if truthy _ then _ else _) as [sp|f]; [|discriminate].
  destruct (negb (truthy (py_or _ _))); [discriminate|].
  destruct (negb (truthy (get_or _ "agent_id" JNull))); [discriminate|].
  intros [= <-]. exists mem_path, mem. cbn [dynamic_variables].
  split; [reflexivity|]. split; [exact L|]. now rewrite <- sdk_string_map_eq.
Qed.

(** X20.  Whether the two runners send the same variables depends on
    the configuration naming the memory file.  When it does and the
    file exists, the [dynamic_variables] of the WebSocket runner's
    payload are those the SDK runner passes on.  When the configuration
    has no [memory_buffer_source], the WebSocket runner sends no
    variables whatever the files hold, while the SDK runner reads
    [buffer/memory_buffer.json] and stops when that file does not
    exist. *)
Theorem runners_agree_on_a_configured_memory_file :
  forall (cfg : dict json) (fs : filesystem),
    (forall src p f payload env s,
       get_or cfg "memory_buffer_source" (JDict []) = JDict src ->
       get_or src "path" JNull = JStr p -> p <> "" -> fs p = Some f ->
       init_message cfg fs = Value payload -> setup cfg fs env = Value s ->
       path_get payload ["dynamic_variables"] =
       Some (json_of_vars (dynamic_variables s))) /\
    (dict_get cfg "memory_buffer_source" = None ->
     load_memory_buffer cfg fs = Ok (JDict []) /\
     (forall payload,
        init_message cfg fs = Value payload ->
        path_get payload ["dynamic_variables"] = Some (JDict [])) /\
     (forall env s,
        setup cfg fs env = Value s ->
        exists f mem,
          fs "buffer/memory_buffer.json" = Some f /\
          loads (content f) = Some mem /\
          to_string_map_of mem = Ok (dynamic_variables s)) /\
     (forall env,
        fs "buffer/memory_buffer.json" = None ->
        setup cfg fs env = Fail (FileNotFound "buffer/memory_buffer.json"))).
Proof.
  intros cfg fs. split.
  - intros src p f payload env s Hs Hp Hne Hf Hi Hsdk.
    apply init_message_payload in Hi.
    destruct Hi as (mem & vars & sp & Hl & Ht & -> & _).
    apply setup_variables in Hsdk.
    destruct Hsdk as (mem_path & mem' & Hpath & Hl' & Ht').
    rewrite Hs in Hpath. cbn [attr_get] in Hpath.
    assert (G : get_or src "path" (JStr "buffer/memory_buffer.json") = JStr p).
    { unfold get_or. now rewrite (get_or_some src "path" JNull (JStr p) Hp). }
    rewrite G in Hpath. injection Hpath as <-.
    unfold load_memory_buffer in Hl. rewrite Hs in Hl. cbn [attr_get] in Hl.
    rewrite Hp, (strip_truthy p Hne) in Hl. cbn [negb path_of] in Hl.
    rewrite Hf in Hl. cbn [load_json] in Hl'. rewrite Hf in Hl'.
    destruct (loads (content f)) as [x|]; [|discriminate].
    injection Hl as <-. injection Hl' as <-.
    rewrite Ht in Ht'. injection Ht' as <-. reflexivity.
  - intros Hnone.
    assert (L : load_memory_buffer cfg fs = Ok (JDict [])).
    { unfold load_memory_buffer, get_or. rewrite Hnone. reflexivity. }
    split; [exact L|]. split; [|split].
    + intros payload H. apply init_message_payload in H.
      destruct H as (mem & vars & sp & Hl & Ht & -> & _).
      rewrite L in Hl. injection Hl as <-. cbn in Ht. injection Ht as <-.
      reflexivity.
    + intros env s H. apply setup_variables in H.
      destruct H as (mem_path & mem & Hpath & Hl & Ht).
      unfold get_or in Hpath. rewrite Hnone in Hpath. cbn in Hpath.
      injection Hpath as <-. cbn [load_json] in Hl.
      destruct (fs "buffer/memory_buffer.json") as [f|]; [|discriminate].
      destruct (loads (content f)) as [x|] eqn:E; [|discriminate].
      injection Hl as <-. now exists f, x.
    + intros env Hf. unfold setup.
      rewrite (env_overrides_get_or cfg env "memory_buffer_source") by reflexivity.
      assert (G : get_or cfg "memory_buffer_source" (JDict []) = JDict [])
        by (unfold get_or; now rewrite Hnone).
      rewrite G. cbn [attr_get]. unfold get_or. cbn [dict_get load_json].
      now rewrite Hf.
Qed.

Lemma runners_agree_on_a_configured_memory_file_witness :
  let cfg := ("prompt_override", JBool false) :: ("agent_id", JStr "a") ::
             ("elevenlabs_api_key", JStr "k") :: Sample.cfg in
  match init_message cfg Sample.fs, setup cfg Sample.fs (fun _ => None) with
  | Value payload, Value s =>
      path_get payload ["dynamic_variables"] =
      Some (json_of_vars (dynamic_variables s)) /\
      dynamic_variables s =
      map (fun k => (k, "1"))
        ["a"; "b"; "c"; "d"; "e"; "f"; "g"; "h"; "i"; "j"; "k"; "l"]
  | _, _ => False
  end.
Proof.
  cbv zeta.
  pose proof (proj1 (runners_agree_on_a_configured_memory_file
                       (("prompt_override", JBool false) :: ("agent_id", JStr "a") ::
                        ("elevenlabs_api_key", JStr "k") :: Sample.cfg) Sample.fs)
                [("path", JStr Sample.memory_path)] Sample.memory_path
                (mkFile 1 (dumps Sample.snapshot))) as H.
  destruct (init_message _ Sample.fs) as [payload|f] eqn:I;
    [|vm_compute in I; discriminate].
  destruct (setup _ Sample.fs (fun _ => None)) as [s|f] eqn:S;
    [|vm_compute in S; discriminate].
  split.
  - apply (H payload (fun _ => None) s); try reflexivity; try discriminate.
    exact S.
  - vm_compute in S. injection S as <-. reflexivity.
Defined.

(** ** Where the conversation id comes from *)

Section ConversationId.

Variable runtime_text : exn -> string.
Variable cfg : dict json.
Variable fs : filesystem.








End ConversationId.


(** ** The prompt of the two runners *)






(** ** The overrides the SDK runner does not use *)

Lemma env_overrides_get_or_key (cfg : dict json) (env : environ)
    (k name : string) (default : json) :
  env_var_of k = Some name ->
  get_or (apply_env_overrides cfg env) k default =
  match env name with
  | Some v => JStr v
  | None => get_or cfg k default
  end.
Proof.
  intros H. unfold get_or. rewrite env_overrides_get, H.
  now destruct (env name).
Qed.

(** X23.  Through its test of [agent_id], before it chooses the audio
    interface, the SDK runner reads five keys of the configuration
    ([memory_buffer_source],
    [prompt_override], [responder_template_path], [elevenlabs_api_key],
    [agent_id]) and two variables of the environment
    ([ELEVENLABS_API_KEY], [ELEVENLABS_AGENT_ID]).  Nothing else has an
    effect: [signed_url], [voice_id], [language], [user_id] and
    [auth_mode], which [apply_env_overrides] takes from the environment,
    change neither the variables, nor the configuration override, nor
    the agent, nor the error the runner stops with. *)
Theorem sdk_setup_ignores_the_other_overrides :
  forall (c1 c2 : dict json) (fs : filesystem) (e1 e2 : environ),
    (forall k,
       In k ["memory_buffer_source"; "prompt_override"; "responder_template_path";
             "elevenlabs_api_key"; "agent_id"] ->
       dict_get c1 k = dict_get c2 k) ->
    (forall name,
       In name ["ELEVENLABS_API_KEY"; "ELEVENLABS_AGENT_ID"] -> e1 name = e2 name) ->
    setup c1 fs e1 = setup c2 fs e2.
Proof.
  intros c1 c2 fs e1 e2 Hc He.
  assert (G : forall k default,
            In k ["memory_buffer_source"; "prompt_override";
                  "responder_template_path"; "elevenlabs_api_key"; "agent_id"] ->
            get_or c1 k default = get_or c2 k default).
  { intros k default Hk. unfold get_or. now rewrite (Hc k Hk). }
  unfold setup, getenv.
  rewrite !(env_overrides_get_or _ _ "memory_buffer_source") by reflexivity.
  rewrite !(env_overrides_get_or _ _ "prompt_override") by reflexivity.
  rewrite !(env_overrides_get_or _ _ "responder_template_path") by reflexivity.
  rewrite !(env_overrides_get_or_key _ _ "elevenlabs_api_key" "ELEVENLABS_API_KEY")
    by reflexivity.
  rewrite !(env_overrides_get_or_key _ _ "agent_id" "ELEVENLABS_AGENT_ID")
    by reflexivity.
  rewrite (He "ELEVENLABS_API_KEY") by (cbn; tauto).
  rewrite (He "ELEVENLABS_AGENT_ID") by (cbn; tauto).
  rewrite !(G "memory_buffer_source") by (cbn; tauto).
  rewrite !(G "prompt_override") by (cbn; tauto).
  rewrite !(G "responder_template_path") by (cbn; tauto).
  rewrite !(G "elevenlabs_api_key") by (cbn; tauto).
  rewrite !(G "agent_id") by (cbn; tauto).
  reflexivity.
Qed.

Lemma sdk_setup_ignores_the_other_overrides_witness :
  let cfg := ("agent_id", JStr "a") :: ("elevenlabs_api_key", JStr "k") ::
             Sample.cfg in
  let env name :=
    if (name =? "ELEVENLABS_VOICE_ID")%string then Some "v1"
    else if (name =? "ELEVENLABS_AUTH_MODE")%string then Some "public"
    else None in
  setup (("signed_url", JStr "wss://x") :: ("language", JStr "hi") :: cfg)
    Sample.fs env =
  setup cfg Sample.fs (fun _ => None).
Proof.
  cbv zeta.
  apply (sdk_setup_ignores_the_other_overrides
           (("signed_url", JStr "wss://x") :: ("language", JStr "hi") ::
            ("agent_id", JStr "a") :: ("elevenlabs_api_key", JStr "k") ::
            Sample.cfg)
           (("agent_id", JStr "a") :: ("elevenlabs_api_key", JStr "k") ::
            Sample.cfg)
           Sample.fs
           (fun name =>
              if (name =? "ELEVENLABS_VOICE_ID")%string then Some "v1"
              else if (name =? "ELEVENLABS_AUTH_MODE")%string then Some "public"
              else None)
           (fun _ => None)).
  - intros k [<-|[<-|[<-|[<-|[<-|[]]]]]]; reflexivity.
  - intros name [<-|[<-|[]]]; reflexivity.
Defined.

